(** * SIMBAD: reflection-array selection, AMORE log ranking and the AMORE worker pool

    A shallow embedding of [simbad/util/mtz_util.py] and
    [simbad/util/amore_util.py], with the properties the design document
    states about them.

    Layout, definitions first:
    - [Py], [PyStr]  the part of the Python runtime the two modules rely
                  on (exceptions, truthiness, indexing, slicing, string
                  and list methods, [max]/[min], [sorted]);
    - [MtzUtil]   class [CreateMtz], over an interface for the reflection
                  library;
    - [AmoreUtil] classes [amore] and [amore_results], the worker pool
                  of [amore_run] as an interleaving of worker steps;
    - [MtzFile]   [CreateMtz.__init__], [output_mtz], [crystal_data] and
                  [get_labels];
    - [AmoreMore] notions the further properties of [amore_util.py] are
                  stated with;
    then the properties:
    - [PyFacts], [MtzFacts], [AmoreFacts], [PoolFacts];
    - [SelectorFacts], [LabelFacts], [RankerFacts], [WorkerFacts].

    Floats are the kernel's binary64 floats, as Python's are.  The
    builtin [float] on strings, the reflection library and the external
    programs are parameters of the model. *)

From Stdlib Require Import ZArith Floats.PrimFloat Uint63 Ascii String.
From stdpp Require Import base list.
Import ListNotations.

Local Open Scope string_scope.
Local Open Scope list_scope.

(* ===================================================================== *)
(** * The Python runtime, as far as the sources use it *)
(* ===================================================================== *)

Module Py.

(** Exceptions the modelled code can raise.  [RuntimeError] carries its
    message; [QueueEmpty] is [Queue.Empty], raised by a timed-out
    [Queue.get]; [ExternalError] stands for whatever an external
    collaborator (a CCP4 executable, the file system) raises. *)
Inductive exn : Type :=
| ValueError
| IndexError
| AttributeError
| UnboundLocalError
| IOError
| QueueEmpty
| RuntimeError (msg : string)
| ExternalError (what : string).

(** A computation either returns or raises. *)
Inductive res (A : Type) : Type :=
| Ok (a : A)
| Raise (e : exn).
Arguments Ok {A} a.
Arguments Raise {A} e.

Definition bind {A B : Type} (m : res A) (k : A -> res B) : res B :=
  match m with
  | Ok a => k a
  | Raise e => Raise e
  end.


(** [if x:] on a slot that holds [None] or an object without [__len__]
    and [__nonzero__]: the object is true, [None] is false. *)
Definition truthy {A : Type} (x : option A) : bool :=
  match x with
  | Some _ => true
  | None => false
  end.

(** A bound method, as the value of the attribute reference [obj.m]
    written without the call parentheses.  [call] is what [obj.m()]
    returns; the method object itself is always true. *)
Inductive bound_method : Type :=
| BoundMethod (returns : bool).

Definition call (m : bound_method) : bool :=
  match m with
  | BoundMethod b => b
  end.

Definition truthy_method (m : bound_method) : bool := true.

(** [l[i]], negative indices counting from the end. *)
Definition getitem {A : Type} (l : list A) (i : Z) : res A :=
  let n := Z.of_nat (length l) in
  let j := if (i <? 0)%Z then (i + n)%Z else i in
  if ((j <? 0) || (n <=? j))%Z then Raise IndexError
  else match nth_error l (Z.to_nat j) with
       | Some a => Ok a
       | None => Raise IndexError
       end.

(** [s[0:n]]. *)
Definition slice_to (n : nat) (s : string) : string := String.substring 0 n s.

(** [s.startswith(p)]. *)
Definition startswith (s p : string) : bool := String.prefix p s.

(** [needle in hay] on strings. *)
Fixpoint contains (needle hay : string) : bool :=
  String.prefix needle hay ||
  match hay with
  | EmptyString => false
  | String _ hay' => contains needle hay'
  end.

(** The whitespace of [str.split()]: space, and the controls 9 to 13. *)
Definition is_space (c : ascii) : bool :=
  let n := nat_of_ascii c in
  Nat.eqb n 32 || (Nat.leb 9 n && Nat.leb n 13).

Definition flush (cur : string) (k : list string) : list string :=
  match cur with
  | EmptyString => k
  | _ => cur :: k
  end.

Fixpoint split_from (cur s : string) : list string :=
  match s with
  | EmptyString => flush cur []
  | String c s' =>
      if is_space c then flush cur (split_from EmptyString s')
      else split_from (cur ++ String c EmptyString)%string s'
  end.

(** [s.split()]: the maximal runs of non-whitespace characters. *)
Definition split (s : string) : list string := split_from EmptyString s.

(** [os.path.basename] on a POSIX path: what follows the last slash. *)
Fixpoint basename_from (cur p : string) : string :=
  match p with
  | EmptyString => cur
  | String c p' =>
      if Ascii.eqb c "/"%char then basename_from EmptyString p'
      else basename_from (cur ++ String c EmptyString)%string p'
  end.

Definition basename (p : string) : string := basename_from EmptyString p.

Fixpoint ends_with_slash (p : string) : bool :=
  match p with
  | EmptyString => false
  | String c EmptyString => Ascii.eqb c "/"%char
  | String _ p' => ends_with_slash p'
  end.

(** [os.path.join(a, b)] on POSIX paths. *)
Definition path_join (a b : string) : string :=
  if String.prefix "/" b then b
  else match a with
       | EmptyString => b
       | _ => if ends_with_slash a then (a ++ b)%string
              else (a ++ "/" ++ b)%string
       end.

(** [max(l)] and [min(l)] on a list of floats: the first element is the
    running extreme and a later one replaces it when it compares
    strictly greater (smaller); the empty list raises [ValueError]. *)
Definition max (l : list float) : res float :=
  match l with
  | [] => Raise ValueError
  | x :: xs =>
      Ok (fold_left (fun m y => if PrimFloat.ltb m y then y else m) xs x)
  end.

Definition min (l : list float) : res float :=
  match l with
  | [] => Raise ValueError
  | x :: xs =>
      Ok (fold_left (fun m y => if PrimFloat.ltb y m then y else m) xs x)
  end.

(** [sorted(l, key=key, reverse=reverse)].  The builtin is a stable sort
    on [key(x) < key(y)] comparisons; with [reverse=True] it reverses,
    sorts stably and reverses again.  A stable insertion sort stands for
    the builtin's algorithm. *)
Section Sorted.
Context {A K : Type} (lt : K -> K -> bool) (key : A -> K).

Fixpoint insert_sorted (x : A) (l : list A) : list A :=
  match l with
  | [] => [x]
  | y :: l' =>
      if lt (key y) (key x) then y :: insert_sorted x l'
      else x :: y :: l'
  end.

Definition sort_stable (l : list A) : list A :=
  fold_right insert_sorted [] l.

Definition sorted (reverse : bool) (l : list A) : list A :=
  if reverse then rev (sort_stable (rev l)) else sort_stable l.
End Sorted.

End Py.

Import Py.

Notation "'do' x <- m ; k" := (Py.bind m (fun x => k))
  (at level 10, x name, m at level 100, k at level 200).

(* ===================================================================== *)
(** * [mtz_util.py]: class [CreateMtz] *)
(* ===================================================================== *)

Module MtzUtil.

(** The reflection-data library (cctbx / iotbx) is an external
    collaborator.  What [CreateMtz] asks of a miller array is collected
    in one interface: the flavour queries of [get_array_types] and the
    transforms of the [create_*] methods.  The flavour predicates are the
    library's methods [is_xray_amplitude_array()] and the like; each
    field gives what the call returns. *)
Class MillerArray (A : Type) : Type := {
  (** [a.observation_type() is None] *)
  observation_type_is_None : A -> bool;
  (** [looks_like_r_free_flags_info(a.info())] *)
  looks_like_r_free_flags_info : A -> bool;
  (** [a.anomalous_flag()] *)
  anomalous_flag : A -> bool;
  (** [a.is_xray_amplitude_array()] *)
  is_xray_amplitude_array : A -> bool;
  (** [a.is_xray_reconstructed_amplitude_array()] *)
  is_xray_reconstructed_amplitude_array : A -> bool;
  (** [a.is_xray_intensity_array()] *)
  is_xray_intensity_array : A -> bool;
  (** [a.info().labels] *)
  info_labels : A -> list string;
  (** [a.set_observation_type_xray_amplitude()] *)
  set_observation_type_xray_amplitude : A -> A;
  (** [a.set_observation_type_xray_intensity()] *)
  set_observation_type_xray_intensity : A -> A;
  (** [a.set_observation_type(observation_types.reconstructed_amplitude())] *)
  set_observation_type_reconstructed_amplitude : A -> A;
  (** [a.as_non_anomalous_array()] *)
  as_non_anomalous_array : A -> A;
  (** [a.merge_equivalents().array()] *)
  merge_equivalents_array : A -> A;
  (** [a.generate_r_free_flags(format='ccp4')] *)
  generate_r_free_flags : A -> A
}.

Section CreateMtz.
Context {A : Type} `{MillerArray A}.

(** An mtz dataset is the list of its columns in the order they were
    added, each a root label with the array behind it. *)
Definition mtz_dataset_t : Type := list (string * A).

(** [miller_array.as_mtz_dataset(column_root_label=l)] *)
Definition as_mtz_dataset (miller_array : A) (column_root_label : string)
  : mtz_dataset_t :=
  [(column_root_label, miller_array)].

(** [dataset.add_miller_array(miller_array, column_root_label=l)] *)
Definition add_miller_array (d : mtz_dataset_t) (miller_array : A)
    (column_root_label : string) : mtz_dataset_t :=
  d ++ [(column_root_label, miller_array)].

(** The attributes [__init__] sets to [None]. *)
Record CreateMtz : Type := mkCreateMtz {
  amplitude_array : option A;
  anomalous_amplitude_array : option A;
  reconstructed_amplitude_array : option A;
  intensity_array : option A;
  anomalous_intensity_array : option A;
  free_array : option A;
  mtz_dataset : option mtz_dataset_t
}.

Definition init : CreateMtz :=
  mkCreateMtz None None None None None None None.

Definition set_amplitude_array (self : CreateMtz) (v : option A) : CreateMtz :=
  mkCreateMtz v (anomalous_amplitude_array self)
    (reconstructed_amplitude_array self) (intensity_array self)
    (anomalous_intensity_array self) (free_array self) (mtz_dataset self).

Definition set_anomalous_amplitude_array (self : CreateMtz) (v : option A)
  : CreateMtz :=
  mkCreateMtz (amplitude_array self) v
    (reconstructed_amplitude_array self) (intensity_array self)
    (anomalous_intensity_array self) (free_array self) (mtz_dataset self).

Definition set_reconstructed_amplitude_array (self : CreateMtz) (v : option A)
  : CreateMtz :=
  mkCreateMtz (amplitude_array self) (anomalous_amplitude_array self)
    v (intensity_array self)
    (anomalous_intensity_array self) (free_array self) (mtz_dataset self).

Definition set_intensity_array (self : CreateMtz) (v : option A) : CreateMtz :=
  mkCreateMtz (amplitude_array self) (anomalous_amplitude_array self)
    (reconstructed_amplitude_array self) v
    (anomalous_intensity_array self) (free_array self) (mtz_dataset self).

Definition set_anomalous_intensity_array (self : CreateMtz) (v : option A)
  : CreateMtz :=
  mkCreateMtz (amplitude_array self) (anomalous_amplitude_array self)
    (reconstructed_amplitude_array self) (intensity_array self)
    v (free_array self) (mtz_dataset self).

Definition set_free_array (self : CreateMtz) (v : option A) : CreateMtz :=
  mkCreateMtz (amplitude_array self) (anomalous_amplitude_array self)
    (reconstructed_amplitude_array self) (intensity_array self)
    (anomalous_intensity_array self) v (mtz_dataset self).

Definition set_mtz_dataset (self : CreateMtz) (v : option mtz_dataset_t)
  : CreateMtz :=
  mkCreateMtz (amplitude_array self) (anomalous_amplitude_array self)
    (reconstructed_amplitude_array self) (intensity_array self)
    (anomalous_intensity_array self) (free_array self) v.

(** A method call on a slot: on [None] it raises [AttributeError]. *)
Definition on_object {B : Type} (x : option A) (k : A -> res B) : res B :=
  match x with
  | Some a => k a
  | None => Raise AttributeError
  end.

(** [add_array_to_mtz_dataset]: the first array creates the dataset, the
    later ones are added to it. *)
Definition add_array_to_mtz_dataset (self : CreateMtz)
    (miller_array : option A) (column_root_label : string) : res CreateMtz :=
  on_object miller_array (fun a =>
    match mtz_dataset self with
    | Some d =>
        Ok (set_mtz_dataset self (Some (add_miller_array d a column_root_label)))
    | None =>
        Ok (set_mtz_dataset self (Some (as_mtz_dataset a column_root_label)))
    end).

Definition create_amplitude_array (self : CreateMtz)
    (intensity_array : option A) : res CreateMtz :=
  on_object intensity_array (fun a =>
    Ok (set_amplitude_array self (Some (set_observation_type_xray_amplitude a)))).

Definition create_anomalous_amplitude_array (self : CreateMtz)
    (anomalous_intensity_array : option A) : res CreateMtz :=
  on_object anomalous_intensity_array (fun a =>
    Ok (set_anomalous_amplitude_array self
          (Some (set_observation_type_xray_amplitude a)))).

Definition create_anomalous_intensity_array (self : CreateMtz)
    (anomalous_amplitude_array : option A) : res CreateMtz :=
  on_object anomalous_amplitude_array (fun a =>
    Ok (set_anomalous_intensity_array self
          (Some (set_observation_type_xray_intensity a)))).

Definition create_intensity_array (self : CreateMtz)
    (amplitude_array : option A) : res CreateMtz :=
  on_object amplitude_array (fun a =>
    Ok (set_intensity_array self (Some (set_observation_type_xray_intensity a)))).

Definition create_merged_intensity_array (self : CreateMtz)
    (anomalous_intensity_array : option A) : res CreateMtz :=
  on_object anomalous_intensity_array (fun a =>
    let merged_intensity_array :=
      merge_equivalents_array (as_non_anomalous_array a) in
    Ok (set_intensity_array self
          (Some (set_observation_type_xray_intensity merged_intensity_array)))).

Definition create_reconstructed_amplitude_array (self : CreateMtz)
    (anomalous_amplitude_array : option A) : res CreateMtz :=
  on_object anomalous_amplitude_array (fun a =>
    Ok (set_reconstructed_amplitude_array self
          (Some (set_observation_type_reconstructed_amplitude a)))).

(** The attribute references of [get_array_types], written in the source
    without call parentheses: each is the bound method, not its result. *)
Definition is_xray_amplitude_array_ref (a : A) : bound_method :=
  BoundMethod (is_xray_amplitude_array a).
Definition is_xray_reconstructed_amplitude_array_ref (a : A) : bound_method :=
  BoundMethod (is_xray_reconstructed_amplitude_array a).
Definition is_xray_intensity_array_ref (a : A) : bound_method :=
  BoundMethod (is_xray_intensity_array a).

(** The body of the loop of [get_array_types], for one array. *)
Definition classify (self : CreateMtz) (miller_array : A) : CreateMtz :=
  let self :=
    if observation_type_is_None miller_array then
      if looks_like_r_free_flags_info miller_array
      then set_free_array self (Some miller_array)
      else self
    else self in
  if truthy_method (is_xray_amplitude_array_ref miller_array)
     && negb (anomalous_flag miller_array)
  then set_amplitude_array self (Some miller_array)
  else if truthy_method (is_xray_amplitude_array_ref miller_array)
          && anomalous_flag miller_array
  then set_anomalous_amplitude_array self (Some miller_array)
  else if truthy_method (is_xray_reconstructed_amplitude_array_ref miller_array)
  then set_reconstructed_amplitude_array self (Some miller_array)
  else if truthy_method (is_xray_intensity_array_ref miller_array)
          && negb (anomalous_flag miller_array)
  then set_intensity_array self (Some miller_array)
  else if truthy_method (is_xray_intensity_array_ref miller_array)
          && anomalous_flag miller_array
  then set_anomalous_intensity_array self (Some miller_array)
  else self.

Definition get_array_types (self : CreateMtz) (all_miller_arrays : list A)
  : CreateMtz :=
  fold_left classify all_miller_arrays self.

Definition no_data_msg : string :=
  "No amplitudes of intensities found in input reflection file".

(** [process_miller_arrays], first block: [# Add amplitudes]. *)
Definition add_amplitudes (self : CreateMtz) : res CreateMtz :=
  if truthy (reconstructed_amplitude_array self) then
    add_array_to_mtz_dataset self (reconstructed_amplitude_array self) "F"
  else if truthy (anomalous_amplitude_array self) then
    do self <- create_reconstructed_amplitude_array self
                 (anomalous_amplitude_array self);
    add_array_to_mtz_dataset self (reconstructed_amplitude_array self) "F"
  else if truthy (anomalous_intensity_array self) then
    do self <- create_anomalous_amplitude_array self
                 (anomalous_intensity_array self);
    do self <- create_reconstructed_amplitude_array self
                 (anomalous_amplitude_array self);
    add_array_to_mtz_dataset self (reconstructed_amplitude_array self) "F"
  else if truthy (amplitude_array self) then
    add_array_to_mtz_dataset self (amplitude_array self) "F"
  else if truthy (intensity_array self) then
    do self <- create_amplitude_array self (intensity_array self);
    add_array_to_mtz_dataset self (amplitude_array self) "F"
  else Raise (RuntimeError no_data_msg).

(** Second block: [# Add intensities]. *)
Definition add_intensities (self : CreateMtz) : res CreateMtz :=
  if truthy (intensity_array self) then
    add_array_to_mtz_dataset self (intensity_array self) "I"
  else if truthy (amplitude_array self) then
    do self <- create_intensity_array self (amplitude_array self);
    add_array_to_mtz_dataset self (intensity_array self) "I"
  else if truthy (anomalous_intensity_array self) then
    do self <- create_merged_intensity_array self
                 (anomalous_intensity_array self);
    add_array_to_mtz_dataset self (intensity_array self) "I"
  else if truthy (anomalous_amplitude_array self) then
    do self <- create_anomalous_intensity_array self
                 (anomalous_amplitude_array self);
    do self <- create_merged_intensity_array self
                 (anomalous_intensity_array self);
    add_array_to_mtz_dataset self (intensity_array self) "I"
  else if truthy (reconstructed_amplitude_array self) then
    do self <- create_anomalous_intensity_array self
                 (reconstructed_amplitude_array self);
    do self <- create_merged_intensity_array self
                 (anomalous_intensity_array self);
    add_array_to_mtz_dataset self (intensity_array self) "I"
  else Raise (RuntimeError no_data_msg).

(** Third block: [# Add free flag]. *)
Definition add_free_flag (self : CreateMtz) : res CreateMtz :=
  if truthy (free_array self) then
    do column_root_label <-
       on_object (free_array self) (fun a => getitem (info_labels a) 0);
    add_array_to_mtz_dataset self (free_array self) column_root_label
  else
    do flags <- on_object (intensity_array self)
                  (fun a => Ok (generate_r_free_flags a));
    let self := set_free_array self (Some flags) in
    add_array_to_mtz_dataset self (free_array self) "FreeR_flag".

Definition process_miller_arrays (self : CreateMtz) : res CreateMtz :=
  do self <- add_amplitudes self;
  do self <- add_intensities self;
  add_free_flag self.

(** The columns of [self.mtz_dataset], none while it is [None]. *)
Definition columns (self : CreateMtz) : list (string * A) :=
  match mtz_dataset self with
  | Some d => d
  | None => []
  end.

(** ** The selection rules as the design document words them *)

(** An ordered list of guarded derivation rules, first match wins. *)
Fixpoint first_present (rules : list (option A)) : option A :=
  match rules with
  | [] => None
  | Some a :: _ => Some a
  | None :: rules' => first_present rules'
  end.

(** Amplitude: reconstructed amplitude; else reconstructed from the
    anomalous amplitude; else from the anomalous intensity (anomalous
    amplitude first, then reconstructed); else the amplitude; else
    derived from the intensity. *)
Definition amplitude_priority (self : CreateMtz) : list (option A) :=
  [ reconstructed_amplitude_array self;
    set_observation_type_reconstructed_amplitude
      <$> anomalous_amplitude_array self;
    (fun a => set_observation_type_reconstructed_amplitude
                (set_observation_type_xray_amplitude a))
      <$> anomalous_intensity_array self;
    amplitude_array self;
    set_observation_type_xray_amplitude <$> intensity_array self ].

(** The merge path: non-anomalous, merged, typed as intensity. *)
Definition merged_intensity (a : A) : A :=
  set_observation_type_xray_intensity
    (merge_equivalents_array (as_non_anomalous_array a)).

(** Intensity: the intensity; else derived from the amplitude; else
    merged from the anomalous intensity; else from the anomalous
    amplitude (anomalous intensity first, then merged); else from the
    reconstructed amplitude along the same path. *)
Definition intensity_priority (self : CreateMtz) : list (option A) :=
  [ intensity_array self;
    set_observation_type_xray_intensity <$> amplitude_array self;
    merged_intensity <$> anomalous_intensity_array self;
    (fun a => merged_intensity (set_observation_type_xray_intensity a))
      <$> anomalous_amplitude_array self;
    (fun a => merged_intensity (set_observation_type_xray_intensity a))
      <$> reconstructed_amplitude_array self ].

(** Classification by declared flavour, the predicates called: what the
    design document says [get_array_types] stores for one array. *)
Definition classify_by_flavor (self : CreateMtz) (miller_array : A)
  : CreateMtz :=
  let self :=
    if observation_type_is_None miller_array then
      if looks_like_r_free_flags_info miller_array
      then set_free_array self (Some miller_array)
      else self
    else self in
  if call (is_xray_amplitude_array_ref miller_array)
     && negb (anomalous_flag miller_array)
  then set_amplitude_array self (Some miller_array)
  else if call (is_xray_amplitude_array_ref miller_array)
          && anomalous_flag miller_array
  then set_anomalous_amplitude_array self (Some miller_array)
  else if call (is_xray_reconstructed_amplitude_array_ref miller_array)
  then set_reconstructed_amplitude_array self (Some miller_array)
  else if call (is_xray_intensity_array_ref miller_array)
          && negb (anomalous_flag miller_array)
  then set_intensity_array self (Some miller_array)
  else if call (is_xray_intensity_array_ref miller_array)
          && anomalous_flag miller_array
  then set_anomalous_intensity_array self (Some miller_array)
  else self.

Definition get_array_types_by_flavor (self : CreateMtz)
    (all_miller_arrays : list A) : CreateMtz :=
  fold_left classify_by_flavor all_miller_arrays self.

End CreateMtz.

Arguments CreateMtz A : clear implicits.
Arguments mtz_dataset_t A : clear implicits.

(** ** A symbolic reflection library, to run the selector on examples

    An array is its column label, its declared flavour and the list of
    transforms applied to it, latest first. *)
Inductive observation : Type :=
| xray_amplitude
| xray_reconstructed_amplitude
| xray_intensity.

Record sym_array : Type := mkSym {
  sym_label : string;
  sym_observation : option observation;
  sym_anomalous : bool;
  sym_trace : list string
}.

Definition sym_is (o : observation) (a : sym_array) : bool :=
  match sym_observation a, o with
  | Some xray_amplitude, xray_amplitude
  | Some xray_reconstructed_amplitude, xray_reconstructed_amplitude
  | Some xray_intensity, xray_intensity => true
  | _, _ => false
  end.

Definition sym_retype (o : observation) (step : string) (a : sym_array)
  : sym_array :=
  mkSym (sym_label a) (Some o) (sym_anomalous a) (step :: sym_trace a).

#[export] Instance sym_MillerArray : MillerArray sym_array := {|
  observation_type_is_None a :=
    match sym_observation a with None => true | Some _ => false end;
  looks_like_r_free_flags_info a :=
    Py.contains "free" (sym_label a) || Py.contains "Free" (sym_label a);
  anomalous_flag := sym_anomalous;
  is_xray_amplitude_array := sym_is xray_amplitude;
  is_xray_reconstructed_amplitude_array := sym_is xray_reconstructed_amplitude;
  is_xray_intensity_array := sym_is xray_intensity;
  info_labels a := [sym_label a];
  set_observation_type_xray_amplitude := sym_retype xray_amplitude "amplitude";
  set_observation_type_xray_intensity := sym_retype xray_intensity "intensity";
  set_observation_type_reconstructed_amplitude :=
    sym_retype xray_reconstructed_amplitude "reconstructed";
  as_non_anomalous_array a :=
    mkSym (sym_label a) (sym_observation a) false
      ("non_anomalous" :: sym_trace a);
  merge_equivalents_array a :=
    mkSym (sym_label a) (sym_observation a) (sym_anomalous a)
      ("merged" :: sym_trace a);
  generate_r_free_flags a :=
    mkSym (sym_label a) None false ("r_free_flags" :: sym_trace a)
|}.

Definition sym_F : sym_array := mkSym "FP" (Some xray_amplitude) false [].
Definition sym_I : sym_array := mkSym "IMEAN" (Some xray_intensity) false [].
Definition sym_Fanom : sym_array := mkSym "F(+)" (Some xray_amplitude) true [].
Definition sym_Ianom : sym_array := mkSym "I(+)" (Some xray_intensity) true [].
Definition sym_free : sym_array := mkSym "FreeRflag" None false [].

End MtzUtil.

(* ===================================================================== *)
(** * [amore_util.py]: classes [amore] and [amore_results] *)
(* ===================================================================== *)

Module AmoreUtil.

Local Open Scope float_scope.

(** ** External collaborators *)

(** A structure file as [iotbx.pdb] presents it: the hierarchy is a list
    of models, each a list of chains, of residue groups, of atom groups,
    of atoms; an atom is its [xyz] triple. *)
Definition xyz : Type := float * float * float.
Definition atom_group : Type := list xyz.
Definition residue_group : Type := list atom_group.
Definition chain : Type := list residue_group.
Definition pdb_model : Type := list chain.

Record pdb_input : Type := mk_pdb {
  (** [mining.extract_best_resolution(extract_remark_iii_records(2))] *)
  best_resolution : option float;
  (** [construct_hierarchy().models()] *)
  models : list pdb_model
}.

(** The file system and the external programs, as the code meets them.
    [run_job] and [os_remove] are told by the log file they concern. *)
Record world : Type := mk_world {
  (** [iotbx.pdb.pdb_input(file_name=model)] *)
  read_pdb : string -> res pdb_input;
  (** [simbad_util.run_job(command_line, logfile, key)] *)
  run_job : string -> res unit;
  (** [os.remove(logfile)] *)
  os_remove : string -> res unit;
  (** [os.walk(dir)]: (dirpath, dirnames, filenames) per directory *)
  os_walk : string -> list (string * list string * list string);
  (** [os.path.relpath(dir)] *)
  os_relpath : string -> string;
  (** the lines of [open(path)] *)
  open_lines : string -> res (list string)
}.

(** [self.optd.d], the configuration mapping, read only. *)
Record optd : Type := mk_optd {
  mode : string;
  nproc : nat;
  work_dir : string
}.

(** ** [amore.calculate_intr_box] *)

Definition calculate_intr_box (w : world) (model : string)
  : res (float * float * float * float) :=
  do pdb <- read_pdb w model;
  let resolution :=
    match best_resolution pdb with
    | None => 2.0
    | Some r => r
    end in
  do model0 <- getitem (models pdb) 0;
  do chain0 <- getitem model0 0;
  let atoms := concat (concat chain0) in
  let x := map (fun a : xyz => fst (fst a)) atoms in
  let y := map (fun a : xyz => snd (fst a)) atoms in
  let z := map (fun a : xyz => snd a) atoms in
  do xmax <- Py.max x; do xmin <- Py.min x;
  let xdiff := xmax - xmin in
  do ymax <- Py.max y; do ymin <- Py.min y;
  let ydiff := ymax - ymin in
  do zmax <- Py.max z; do zmin <- Py.min z;
  let zdiff := zmax - zmin in
  do smallest <- Py.min [xdiff; ydiff; zdiff];
  let intrad := smallest * 0.75 in
  let x := xdiff + intrad + resolution in
  let y := ydiff + intrad + resolution in
  let z := zdiff + intrad + resolution in
  Ok (x, y, z, intrad).

(** ** The per-model pipeline *)

(** Reading [self.name] before any assignment raises [AttributeError]. *)
Definition get_name (name : option string) : res string :=
  match name with
  | Some n => Ok n
  | None => Raise AttributeError
  end.

Definition amore_tabfun (w : world) (o : optd) (name : option string)
    (model : string) (x y z : float) : res unit :=
  do n <- get_name name;
  let logfile := path_join (work_dir o) (n ++ "_tabfun.log")%string in
  do _ <- run_job w logfile;
  os_remove w logfile.

Definition amore_rotfun (w : world) (o : optd) (name : option string)
    (intrad : float) : res unit :=
  do n <- get_name name;
  let logfile :=
    path_join (path_join (work_dir o) "clogs") (n ++ ".log")%string in
  run_job w logfile.

(** [_amore_run]: returns the worker's [self.name] after the call. *)
Definition _amore_run (w : world) (o : optd) (name : option string)
    (model : string) : res (option string) :=
  let name :=
    if String.eqb (mode o) "CONTAM_ROT"
    then Some (slice_to 6 (basename model))
    else if String.eqb (mode o) "FULL_ROT"
    then Some (slice_to 7 (basename model))
    else name in
  do _ <- get_name name;
  if String.eqb (mode o) "CONTAM_ROT" then
    do box <- calculate_intr_box w model;
    let '(x, y, z, intrad) := box in
    do _ <- amore_tabfun w o name model x y z;
    do _ <- amore_rotfun w o name intrad;
    Ok name
  else Ok name.

(** ** [amore.amore_run]: the job queue and its workers

    The queue is the only object the worker processes share.
    [multiprocessing.Queue] is taken by its contract: an atomic FIFO, on
    which [empty()] and [get()] see every item the parent has put.  The
    parent puts every model before it starts a worker and nothing is put
    afterwards, so a [get] that finds the queue empty waits out its
    time-out and raises [Queue.Empty].

    A worker is at one of the points of the loop of [run]: about to test
    [job_queue.empty()], about to call [job_queue.get], inside
    [self._amore_run(model)], returned, or ended by an exception. *)
Inductive pc : Type :=
| AtTest
| AtGet
| Running (model : string)
| Returned
| Died (e : exn).

Record worker : Type := mk_worker {
  w_pc : pc;
  (** this process's copy of [self.name] *)
  w_name : option string
}.

Record pool : Type := mk_pool {
  job_queue : list string;
  workers : list worker;
  (** the models handed to [_amore_run] so far, with the worker that
      took each, latest last *)
  processed : list (nat * string)
}.

(** The models the parent puts on the queue: every file name of every
    directory of the walk, joined to the relative path of [models_dir]. *)
Definition queued_models (w : world) (models_dir : string) : list string :=
  concat (map (fun e : string * list string * list string =>
                 map (fun model => path_join (os_relpath w models_dir) model)
                     (snd e))
              (os_walk w models_dir)).

(** The state [amore_run] leaves when it returns: the queue filled,
    [nproc] processes started. *)
Definition amore_run (w : world) (o : optd) (models_dir : string) : pool :=
  mk_pool (queued_models w models_dir)
          (replicate (nproc o) (mk_worker AtTest None))
          [].

Definition set_worker (s : pool) (i : nat) (wk : worker) : pool :=
  mk_pool (job_queue s) (<[i := wk]> (workers s)) (processed s).

(** One step of worker [i]; [None] when there is no such worker or it
    has ended. *)
Definition step (w : world) (o : optd) (i : nat) (s : pool) : option pool :=
  match workers s !! i with
  | None => None
  | Some wk =>
      match w_pc wk with
      | AtTest =>
          match job_queue s with
          | [] => Some (set_worker s i (mk_worker Returned (w_name wk)))
          | _ :: _ => Some (set_worker s i (mk_worker AtGet (w_name wk)))
          end
      | AtGet =>
          match job_queue s with
          | [] => Some (set_worker s i (mk_worker (Died QueueEmpty) (w_name wk)))
          | model :: rest =>
              Some (mk_pool rest
                      (<[i := mk_worker (Running model) (w_name wk)]> (workers s))
                      (processed s))
          end
      | Running model =>
          let wk' :=
            match _amore_run w o (w_name wk) model with
            | Ok name => mk_worker AtTest name
            | Raise e => mk_worker (Died e) (w_name wk)
            end in
          Some (mk_pool (job_queue s)
                  (<[i := wk']> (workers s))
                  (processed s ++ [(i, model)]))
      | Returned => None
      | Died _ => None
      end
  end.

(** Run the workers in the order a schedule names them; a worker named
    after it has ended is skipped. *)
Fixpoint run_schedule (w : world) (o : optd) (sched : list nat) (s : pool)
  : pool :=
  match sched with
  | [] => s
  | i :: sched' =>
      match step w o i s with
      | Some s' => run_schedule w o sched' s'
      | None => run_schedule w o sched' s
      end
  end.

(** The interleavings: some worker takes a step. *)
Inductive steps (w : world) (o : optd) : nat -> pool -> pool -> Prop :=
| steps_refl s : steps w o 0 s s
| steps_next n i s s' s'' :
    step w o i s = Some s' -> steps w o n s' s'' -> steps w o (S n) s s''.

(** What one step of a worker can be: the six ways through the loop
    of [run]. *)
Inductive step_kind (w : world) (o : optd) (s s' : pool) (i : nat) : Prop :=
| queue_seen_empty wk l1 l2 :
    workers s = l1 ++ wk :: l2 -> w_pc wk = AtTest -> job_queue s = [] ->
    s' = mk_pool [] (l1 ++ mk_worker Returned (w_name wk) :: l2) (processed s) ->
    step_kind w o s s' i
| queue_seen_filled wk l1 l2 :
    workers s = l1 ++ wk :: l2 -> w_pc wk = AtTest -> job_queue s <> [] ->
    s' = mk_pool (job_queue s) (l1 ++ mk_worker AtGet (w_name wk) :: l2)
           (processed s) ->
    step_kind w o s s' i
| get_timed_out wk l1 l2 :
    workers s = l1 ++ wk :: l2 -> w_pc wk = AtGet -> job_queue s = [] ->
    s' = mk_pool [] (l1 ++ mk_worker (Died QueueEmpty) (w_name wk) :: l2)
           (processed s) ->
    step_kind w o s s' i
| got_model wk l1 l2 model rest :
    workers s = l1 ++ wk :: l2 -> w_pc wk = AtGet ->
    job_queue s = model :: rest ->
    s' = mk_pool rest (l1 ++ mk_worker (Running model) (w_name wk) :: l2)
           (processed s) ->
    step_kind w o s s' i
| pipeline_returned wk l1 l2 model name :
    workers s = l1 ++ wk :: l2 -> w_pc wk = Running model ->
    _amore_run w o (w_name wk) model = Ok name ->
    s' = mk_pool (job_queue s) (l1 ++ mk_worker AtTest name :: l2)
           (processed s ++ [(i, model)]) ->
    step_kind w o s s' i
| pipeline_raised wk l1 l2 model e :
    workers s = l1 ++ wk :: l2 -> w_pc wk = Running model ->
    _amore_run w o (w_name wk) model = Raise e ->
    s' = mk_pool (job_queue s) (l1 ++ mk_worker (Died e) (w_name wk) :: l2)
           (processed s ++ [(i, model)]) ->
    step_kind w o s s' i.

(** Every worker has ended. *)
Definition ended (wk : worker) : bool :=
  match w_pc wk with
  | Returned | Died _ => true
  | _ => false
  end.

Definition all_ended (s : pool) : bool := forallb ended (workers s).

(** A bound on the steps still to come. *)
Definition pc_weight (p : pc) : nat :=
  match p with
  | AtTest => 2
  | AtGet => 1
  | Running _ => 3
  | Returned | Died _ => 0
  end.

Definition measure (s : pool) : nat :=
  3 * length (job_queue s)
  + sum_list_with (fun wk => pc_weight (w_pc wk)) (workers s).

(** The model a worker is inside [_amore_run] with, if any. *)
Definition running (wk : worker) : option string :=
  match w_pc wk with
  | Running model => Some model
  | _ => None
  end.

(** Where every model of a state is: handed to [_amore_run] and done
    with, inside [_amore_run], or still queued. *)
Definition accounted (s : pool) : list string :=
  map snd (processed s) ++ omap running (workers s) ++ job_queue s.

(** What holds of every state a pool reaches from a queue [q] when no
    pipeline raises: no model is lost or doubled, and a worker has ended
    only once the queue was empty. *)
Definition pool_inv (q : list string) (s : pool) : Prop :=
  accounted s ≡ₚ q /\
  (Exists (fun wk => ended wk = true) (workers s) -> job_queue s = []).

(** ** [amore_results.return_z_score_results] *)

(** A field of a result record: a float, or the string the parser puts
    in its place. *)
Inductive field : Type :=
| Float (f : float)
| Str (s : string).

(** The eleven locals the parser assigns from one line.  They are
    assigned one after the other, but an exception between two of the
    assignments leaves the function, so they are seen either all or not
    at all. *)
Record line_values : Type := mk_values {
  v_ALPHA : float;
  v_BETA : float;
  v_GAMMA : float;
  v_CC_F : field;
  v_RF_F : field;
  v_CC_I : field;
  v_CC_P : field;
  v_Icp : field;
  v_CC_F_Z_score : float;
  v_CC_P_Z_score : float;
  v_Num_of_rot : float
}.

(** The named tuple [amore_results]. *)
Record result : Type := mk_result {
  log_name : string;
  ALPHA : float;
  BETA : float;
  GAMMA : float;
  CC_F : field;
  RF_F : field;
  CC_I : field;
  CC_P : field;
  Icp : field;
  CC_F_Z_score : float;
  CC_P_Z_score : float;
  Number_of_rotation_searches_producing_peak : float
}.

Definition result_of (name : string) (v : line_values) : result :=
  mk_result name (v_ALPHA v) (v_BETA v) (v_GAMMA v) (v_CC_F v) (v_RF_F v)
    (v_CC_I v) (v_CC_P v) (v_Icp v) (v_CC_F_Z_score v) (v_CC_P_Z_score v)
    (v_Num_of_rot v).

(** The attributes of an [amore_results] object. *)
Record amore_results : Type := mk_amore_results {
  results : list result;
  sorted_results : list result;
  score : float
}.

Definition new_amore_results : amore_results := mk_amore_results [] [] 0.

Definition sentinel : string := " SOLUTIONRCD ".

Section Parser.
(** The builtin [float] on a string: [None] where it raises
    [ValueError]. *)
Variable pyfloat : string -> option float.

Definition to_float (s : string) : res float :=
  match pyfloat s with
  | Some f => Ok f
  | None => Raise ValueError
  end.

(** [float(fields[i])] *)
Definition float_at (fields : list string) (i : Z) : res float :=
  do s <- getitem fields i;
  to_float s.

(** The body of [try:]. *)
Definition parse_try (fields : list string) : res line_values :=
  do ALPHA <- float_at fields 2;
  do BETA <- float_at fields 3;
  do GAMMA <- float_at fields 4;
  do CC_F <- float_at fields 8;
  do RF_F <- float_at fields 9;
  do CC_I <- float_at fields 10;
  do CC_P <- float_at fields 11;
  do Icp <- float_at fields 12;
  do CC_F_Z_score <- float_at fields (-3);
  do CC_P_Z_score <- float_at fields (-2);
  do Num_of_rot <- float_at fields (-1);
  Ok (mk_values ALPHA BETA GAMMA (Float CC_F) (Float RF_F) (Float CC_I)
        (Float CC_P) (Float Icp) CC_F_Z_score CC_P_Z_score Num_of_rot).

(** The body of [except ValueError:]. *)
Definition parse_except (fields : list string) : res line_values :=
  do ALPHA <- float_at fields 2;
  do BETA <- float_at fields 3;
  do GAMMA <- float_at fields 4;
  do CC_F_Z_score <- float_at fields (-3);
  do CC_P_Z_score <- float_at fields (-2);
  do Num_of_rot <- float_at fields (-1);
  Ok (mk_values ALPHA BETA GAMMA (Str "N/A") (Str "N/A") (Str "N/A")
        (Str "N/A") (Str "N/A") CC_F_Z_score CC_P_Z_score Num_of_rot).

(** [try: ... except ValueError: ...] *)
Definition parse_fields (fields : list string) : res line_values :=
  match parse_try fields with
  | Raise ValueError => parse_except fields
  | r => r
  end.

(** [for line in open(...)]: the locals as they stand when the loop is
    left, by [break] or at the end of the file. *)
Fixpoint scan_lines (self_score : float) (lines : list string)
    (locals : option line_values) : res (option line_values) :=
  match lines with
  | [] => Ok locals
  | line :: lines' =>
      if startswith line sentinel then
        let fields := split line in
        do z <- float_at fields (-3);
        if PrimFloat.ltb self_score z then
          do v <- parse_fields fields;
          Ok (Some v)
        else scan_lines self_score lines' locals
      else scan_lines self_score lines' locals
  end.

(** A line is passed over when it does not start with the sentinel, or
    when its Z-score parses and does not exceed the threshold. *)
Definition passed_over (self_score : float) (line : string) : Prop :=
  startswith line sentinel = false \/
  exists z, float_at (split line) (-3) = Ok z /\
            PrimFloat.ltb self_score z = false.

(** The body of [for log in e[2]]: scan the file, then append a record
    built from the locals; a local never assigned raises
    [UnboundLocalError]. *)
Definition scan_log (w : world) (log_dir : string) (self_score : float)
    (acc : option line_values * list result) (log : string)
  : res (option line_values * list result) :=
  do lines <- open_lines w (path_join log_dir log);
  do locals <- scan_lines self_score lines (fst acc);
  let log_name :=
    if contains "clogs" log_dir then slice_to 6 log else slice_to 7 log in
  match locals with
  | Some v => Ok (locals, snd acc ++ [result_of log_name v])
  | None => Raise UnboundLocalError
  end.

Fixpoint scan_logs (w : world) (log_dir : string) (self_score : float)
    (acc : option line_values * list result) (logs : list string)
  : res (option line_values * list result) :=
  match logs with
  | [] => Ok acc
  | log :: logs' =>
      do acc' <- scan_log w log_dir self_score acc log;
      scan_logs w log_dir self_score acc' logs'
  end.

(** The final loop: [count] is set to 0 before it and the body does not
    assign it. *)
Fixpoint append_solutions (clogs : bool) (count : nat)
    (sorted_solutions : list result) (out : list result) : list result :=
  match sorted_solutions with
  | [] => out
  | solution :: rest =>
      let out' :=
        if clogs then
          if Nat.ltb count 20 then out ++ [solution] else out
        else
          if Nat.ltb count 200 then out ++ [solution] else out in
      append_solutions clogs count rest out'
  end.

Definition return_z_score_results (w : world) (self : amore_results)
    (log_dir : string) : res amore_results :=
  let logs :=
    concat (map (fun e : string * list string * list string => snd e)
                (os_walk w log_dir)) in
  do acc <- scan_logs w log_dir (score self) (None, results self) logs;
  let results' := snd acc in
  let sorted_solutions := Py.sorted PrimFloat.ltb CC_F_Z_score true results' in
  let sorted' :=
    append_solutions (contains "clogs" log_dir) 0 sorted_solutions
      (sorted_results self) in
  Ok (mk_amore_results results' sorted' (score self)).

End Parser.

(** ** A reader of plain decimal literals, to run the parser on examples

    Sign, digits, at most one point.  On such strings of a few digits it
    gives what the builtin [float] gives; every other string is
    refused. *)
Definition digit_of (c : ascii) : option Z :=
  let n := nat_of_ascii c in
  if Nat.leb 48 n && Nat.leb n 57 then Some (Z.of_nat (n - 48)) else None.

Fixpoint read_decimal (s : string) (mant : Z) (frac : option nat)
    (seen : bool) : option (Z * nat) :=
  match s with
  | EmptyString =>
      if seen then Some (mant, match frac with Some k => k | None => O end)
      else None
  | String c s' =>
      if Ascii.eqb c "."%char then
        match frac with
        | None => read_decimal s' mant (Some O) seen
        | Some _ => None
        end
      else
        match digit_of c with
        | Some d =>
            read_decimal s' (10 * mant + d)%Z
              (match frac with Some k => Some (S k) | None => None end) true
        | None => None
        end
  end.

Definition float_of_Z (z : Z) : float := PrimFloat.of_uint63 (Uint63.of_Z z).

Definition unsigned_decimal (s : string) : option float :=
  match read_decimal s 0 None false with
  | Some (m, k) => Some (float_of_Z m / float_of_Z (10 ^ Z.of_nat k))
  | None => None
  end.

Definition decimal_float (s : string) : option float :=
  match s with
  | String c s' =>
      if Ascii.eqb c "-"%char then
        match unsigned_decimal s' with
        | Some f => Some (- f)
        | None => None
        end
      else if Ascii.eqb c "+"%char then unsigned_decimal s'
      else unsigned_decimal s
  | EmptyString => None
  end.

(** ** Worked inputs *)

(** A world in which no file can be read and every external job
    succeeds. *)
Definition quiet_world : world :=
  mk_world (fun _ => Raise IOError) (fun _ => Ok tt) (fun _ => Ok tt)
           (fun _ => []) (fun dir => dir) (fun _ => Raise IOError).

(** One model, one chain, four atoms; resolution 2.0 on record. *)
Definition box_atoms : list xyz :=
  [(0, 0, 0); (10, 0, 0); (0, 5, 0); (0, 0, 2)].

Definition box_pdb : pdb_input := mk_pdb (Some 2.0) [[[[box_atoms]]]].

(** A structure file whose first chain holds no atom. *)
Definition empty_pdb : pdb_input := mk_pdb None [[[]]].

(** A directory [models] of two files, the first one without atoms. *)
Definition two_models_world : world :=
  mk_world
    (fun path =>
       if String.eqb path "models/empty1.pdb" then Ok empty_pdb
       else Ok box_pdb)
    (fun _ => Ok tt) (fun _ => Ok tt)
    (fun dir =>
       if String.eqb dir "models"
       then [("models", [], ["empty1.pdb"; "good01.pdb"])]
       else [])
    (fun dir => dir)
    (fun _ => Raise IOError).

(** The same directory with sound files only. *)
Definition sound_models_world : world :=
  mk_world (fun _ => Ok box_pdb) (fun _ => Ok tt) (fun _ => Ok tt)
    (fun dir =>
       if String.eqb dir "models"
       then [("models", [], ["good01.pdb"; "good02.pdb"])]
       else [])
    (fun dir => dir)
    (fun _ => Raise IOError).

Definition contaminant_search (n : nat) : optd :=
  mk_optd "CONTAM_ROT" n "work".

(** Log lines.  The fields of a solution line are: the sentinel, a
    counter, three angles, three translations, CC_F RF_F CC_I CC_P Icp,
    and the two Z-scores with the peak count. *)
Definition solution_line (z : string) : string :=
  (" SOLUTIONRCD   1   10.0 20.0 30.0  0.0 0.0 0.0  41.5 52.5 43.5 44.5 5.5  "
     ++ z ++ " 2.5 7.0")%string.



Definition log_world (dir : string) (logs : list (string * list string))
  : world :=
  mk_world (fun _ => Raise IOError) (fun _ => Ok tt) (fun _ => Ok tt)
    (fun d => if String.eqb d dir then [(dir, [], map fst logs)] else [])
    (fun d => d)
    (fun path =>
       match list_find (fun l => String.eqb (path_join dir (fst l)) path) logs with
       | Some (_, (_, lines)) => Ok lines
       | None => Raise IOError
       end).

(** Twenty-one logs in a [clogs] directory, each with a solution. *)
Definition names_21 : list string :=
  map (fun c => String c "model.log")
      (list_ascii_of_string "abcdefghijklmnopqrstu").

Definition many_logs_world : world :=
  log_world "work/clogs" (map (fun n => (n, [solution_line "6.5"])) names_21).

(** Four logs with the scores 5.0, 9.0, 3.0, 9.0. *)
Definition four_logs_world : world :=
  log_world "work/clogs"
    [("1aaa_A.log", [solution_line "5.0"]);
     ("2bbb_A.log", [solution_line "9.0"]);
     ("3ccc_A.log", [solution_line "3.0"]);
     ("4ddd_A.log", [solution_line "9.0"])].

(** A log with a solution, followed by one whose only solution line has
    the Z-score 0.0. *)
Definition stale_logs_world : world :=
  log_world "work/clogs"
    [("1aaa_A.log", [" AMORE"; solution_line "6.5"]);
     ("2bbb_A.log", [" AMORE"; solution_line "0.0"])].

(** The second of them alone. *)
Definition lone_log_world : world :=
  log_world "work/clogs" [("2bbb_A.log", [" AMORE"; solution_line "0.0"])].

(** The record both solution lines above give, under a log name. *)
Definition solution_values (z : float) : line_values :=
  mk_values 10 20 30 (Float 41.5) (Float 52.5) (Float 43.5) (Float 44.5)
    (Float 5.5) z 2.5 7.

(** ** The statements of the design document that the code does not
    meet, as propositions *)

(** Every model handed to a pool of [nproc] workers, [nproc] at most the
    number of models, is processed exactly once and the queue is empty
    when the workers have ended. *)
Definition every_model_once (w : world) (o : optd) (models_dir : string)
  : Prop :=
  nproc o <= length (queued_models w models_dir) ->
  forall n s,
    steps w o n (amore_run w o models_dir) s ->
    all_ended s = true ->
    map snd (processed s) ≡ₚ queued_models w models_dir /\
    job_queue s = [].

(** An exception of the per-model pipeline is caught in the loop: the
    worker goes on to test the queue again. *)
Definition failure_is_caught (w : world) (o : optd) : Prop :=
  forall s i wk model e,
    workers s !! i = Some wk ->
    w_pc wk = Running model ->
    _amore_run w o (w_name wk) model = Raise e ->
    exists s' wk',
      step w o i s = Some s' /\
      workers s' !! i = Some wk' /\
      w_pc wk' = AtTest.


End AmoreUtil.

(* ===================================================================== *)
(** * More of the runtime: [str.lower], [str.replace], [in] and [index]
      on lists *)
(* ===================================================================== *)

Module PyStr.

(** [c.lower()] on an ASCII character. *)
Definition lower_char (c : ascii) : ascii :=
  let n := nat_of_ascii c in
  if Nat.leb 65 n && Nat.leb n 90 then ascii_of_nat (n + 32) else c.

(** [s.lower()]. *)
Fixpoint lower (s : string) : string :=
  match s with
  | EmptyString => EmptyString
  | String c s' => String (lower_char c) (lower s')
  end.

(** [s.replace(c, "")] for a one-character [c]. *)
Fixpoint remove_char (c : ascii) (s : string) : string :=
  match s with
  | EmptyString => EmptyString
  | String d s' =>
      if Ascii.eqb d c then remove_char c s' else String d (remove_char c s')
  end.

(** [x in l] on a list of strings. *)
Definition list_in (x : string) (l : list string) : bool :=
  existsb (String.eqb x) l.

(** [l.index(x)]: the first position of [x]; [ValueError] when absent. *)
Fixpoint list_index (x : string) (l : list string) : res nat :=
  match l with
  | [] => Raise ValueError
  | y :: l' =>
      if String.eqb y x then Ok 0
      else do k <- list_index x l'; Ok (S k)
  end.

(** [if s:] on a variable that holds [None] or a string. *)
Definition truthy_str (s : option string) : bool :=
  match s with
  | Some EmptyString => false
  | Some _ => true
  | None => false
  end.

End PyStr.

(* ===================================================================== *)
(** * [mtz_util.py]: reading and writing files *)
(* ===================================================================== *)

Module MtzFile.
Import MtzUtil PyStr.

(** What [file_content()] of an mtz file answers: the column types and
    labels in file order, the columns' data, and the crystal data.
    A column is read as the pairs of [extract_values()] and
    [selection_valid()]. *)
Record mtz_content : Type := mk_content {
  column_types : list string;
  column_labels : list string;
  get_column : string -> list (float * bool);
  space_group_name : string;
  (** [max_min_resolution()] *)
  max_min_resolution : float * float;
  (** [unit_cell_parameters()] of each of [crystals()] *)
  crystals : list (list float)
}.

(** [reflection_file_reader.any_reflection_file(file_name=...)]. *)
Record reflection_file (A : Type) : Type := mk_file {
  file_type : option string;
  file_content : option mtz_content;
  as_miller_arrays : list A
}.
Arguments mk_file {A} _ _ _.
Arguments file_type {A} _.
Arguments file_content {A} _.
Arguments as_miller_arrays {A} _.

Definition is_ccp4_mtz {A : Type} (file : reflection_file A) : bool :=
  match file_type file with
  | Some t => String.eqb t "ccp4_mtz"
  | None => false
  end.

Definition not_mtz_msg (name : string) : string :=
  ("File is not of type ccp4_mtz: " ++ name)%string.

Section Init.
Context {A : Type} `{MillerArray A}.

(** [CreateMtz.__init__]. *)
Definition CreateMtz__init__ (file : reflection_file A)
    (input_reflection_file : string) : res (CreateMtz A) :=
  if negb (is_ccp4_mtz file) then
    Raise (RuntimeError (not_mtz_msg input_reflection_file))
  else
    let all_miller_arrays := as_miller_arrays file in
    let self := get_array_types init all_miller_arrays in
    process_miller_arrays self.

(** [output_mtz]: what is written, under which name. *)
Definition output_mtz (self : CreateMtz A) (output_mtz_file : string)
  : res (string * mtz_dataset_t A) :=
  match mtz_dataset self with
  | Some d => Ok (output_mtz_file, d)
  | None => Raise AttributeError
  end.

(** The arrays that pass the free-flag test of [get_array_types]. *)
Definition free_like (a : A) : bool :=
  observation_type_is_None a && looks_like_r_free_flags_info a.

End Init.

(** [crystal_data]. *)
Definition crystal_data {A : Type} (file : reflection_file A)
  : res (string * float * list float) :=
  match file_content file with
  | None => Raise AttributeError
  | Some content =>
      let space_group := remove_char " "%char (space_group_name content) in
      let resolution := snd (max_min_resolution content) in
      do cell_parameters <- getitem (crystals content) 0;
      Ok (space_group, resolution, cell_parameters)
  end.

(** The tuple [get_labels] returns. *)
Record labels : Type := mk_labels {
  l_f : string;
  l_fp : string;
  l_i : string;
  l_sigi : string;
  l_dano : option string;
  l_sigdano : option string;
  l_free : option string
}.

Definition no_amplitudes_msg (mtz_file : string) : string :=
  ("Cannot find any structure amplitudes in: " ++ mtz_file)%string.
Definition no_intensities_msg (mtz_file : string) : string :=
  ("Cannot find any intensities in: " ++ mtz_file)%string.
Definition no_label_msg (label mtz_file : string) : string :=
  ("Cannot find label " ++ label ++ " in file: " ++ mtz_file)%string.

(** The body of [try:] in [get_labels]. *)
Definition anomalous_labels (mtz_file : string) (ctypes clabels : list string)
  : res (string * string) :=
  if negb (list_in "D" ctypes) then
    Raise (RuntimeError (no_amplitudes_msg mtz_file))
  else
    do k <- list_index "D" ctypes;
    do dano <- getitem clabels (Z.of_nat k);
    let sigdano := ("SIG" ++ dano)%string in
    if negb (list_in sigdano clabels) then
      Raise (RuntimeError (no_label_msg sigdano mtz_file))
    else Ok (dano, sigdano).

(** [n0 > 0 and n1 > 0]: a valid reflection with flag 0 and a valid one
    with another flag. *)
Definition both_flag_classes (column : list (float * bool)) : bool :=
  let n0 :=
    length (filter (fun r : float * bool => PrimFloat.eqb (fst r) 0 && snd r)
                   column) in
  let n1 :=
    length (filter (fun r : float * bool =>
                      negb (PrimFloat.eqb (fst r) 0) && snd r) column) in
  Nat.ltb 0 n0 && Nat.ltb 0 n1.

(** Whether [get_labels] takes a column for the free flags. *)
Definition free_candidate (content : mtz_content) (label : string) : bool :=
  contains "free" (lower label) && both_flag_classes (get_column content label).

(** The body of the loop over the labels: the free label so far and the
    number of warnings logged. *)
Definition free_step (content : mtz_content) (acc : option string * nat)
    (label : string) : option string * nat :=
  if contains "free" (lower label) then
    if both_flag_classes (get_column content label) then
      (Some label, if truthy_str (fst acc) then S (snd acc) else snd acc)
    else acc
  else acc.

(** [get_labels]: the labels, and how many warnings were logged. *)
Definition get_labels {A : Type} (file : reflection_file A) (mtz_file : string)
  : res (labels * nat) :=
  if negb (is_ccp4_mtz file) then Raise (RuntimeError (not_mtz_msg mtz_file))
  else
    match file_content file with
    | None => Raise AttributeError
    | Some content =>
        let ctypes := column_types content in
        let clabels := column_labels content in
        if negb (list_in "F" ctypes) then
          Raise (RuntimeError (no_amplitudes_msg mtz_file))
        else
          do kf <- list_index "F" ctypes;
          do f <- getitem clabels (Z.of_nat kf);
          let fp := ("SIG" ++ f)%string in
          if negb (list_in fp clabels) then
            Raise (RuntimeError (no_label_msg fp mtz_file))
          else if negb (list_in "J" ctypes) then
            Raise (RuntimeError (no_intensities_msg mtz_file))
          else
            do ki <- list_index "J" ctypes;
            do i <- getitem clabels (Z.of_nat ki);
            let sigi := ("SIG" ++ i)%string in
            if negb (list_in sigi clabels) then
              Raise (RuntimeError (no_label_msg sigi mtz_file))
            else
              do anomalous <-
                 match anomalous_labels mtz_file ctypes clabels with
                 | Ok (dano, sigdano) => Ok (Some dano, Some sigdano)
                 | Raise (RuntimeError _) => Ok (None, None)
                 | Raise e => Raise e
                 end;
              let found := fold_left (free_step content) clabels (None, 0) in
              Ok (mk_labels f fp i sigi (fst anomalous) (snd anomalous)
                    (fst found), snd found)
    end.

(** ** Worked inputs *)

Definition flags_column : list (float * bool) :=
  [(0, true); (1, true); (0, true); (1, false)]%float.

Definition typical_content : mtz_content :=
  mk_content ["H"; "H"; "H"; "F"; "Q"; "J"; "Q"; "I"]
             ["H"; "K"; "L"; "FP"; "SIGFP"; "IMEAN"; "SIGIMEAN"; "FreeR_flag"]
             (fun _ => flags_column)
             "P 21 21 21" (45.5, 1.5)%float [[10; 20; 30; 90; 90; 90]%float].

Definition typical_file : reflection_file sym_array :=
  mk_file (Some "ccp4_mtz") (Some typical_content) [sym_F; sym_free].

End MtzFile.

(* ===================================================================== *)
(** * More on [amore_util.py] *)
(* ===================================================================== *)

Module AmoreMore.
Import AmoreUtil.

(** The records a scan of [logs] adds to [results]: one per log, under
    the name cut from the log's file name. *)
Definition cut_name (log_dir log : string) : string :=
  if contains "clogs" log_dir then slice_to 6 log else slice_to 7 log.

(** The log files of a directory in the order the scan meets them. *)
Definition logs_of (w : world) (log_dir : string) : list string :=
  concat (map (fun e : string * list string * list string => snd e)
              (os_walk w log_dir)).

(** The locals of the scan, when assigned, hold a Z-score above the
    threshold. *)
Definition above (self_score : float) (locals : option line_values) : Prop :=
  match locals with
  | Some v => PrimFloat.ltb self_score (v_CC_F_Z_score v) = true
  | None => True
  end.

(** A pool with a single worker. *)
Definition lone_worker (s : pool) : option worker :=
  match workers s with
  | [wk] => Some wk
  | _ => None
  end.

(** The models of a one-worker pool in the order they are dealt with. *)
Definition in_order (s : pool) : list string :=
  map snd (processed s)
  ++ match lone_worker s with
     | Some wk => match running wk with Some m => [m] | None => [] end
     | None => []
     end
  ++ job_queue s.

(** The log file [amore_rotfun] writes for a model. *)
Definition rotfun_log (o : optd) (model : string) : string * string :=
  (path_join (work_dir o) "clogs",
   (slice_to 6 (basename model) ++ ".log")%string).

End AmoreMore.

(* ===================================================================== *)
(** * Facts about the runtime model *)
(* ===================================================================== *)

Module PyFacts.

Lemma getitem_0_cons {A : Type} (x : A) (l : list A) :
  getitem (x :: l) 0 = Ok x.
Proof.
  unfold getitem. cbv zeta. change (0 <? 0)%Z with false. cbv iota.
  replace (Z.of_nat (length (x :: l)) <=? 0)%Z with false
    by (symmetry; apply Z.leb_gt; cbn [length]; lia).
  reflexivity.
Qed.

Lemma getitem_0_nil {A : Type} : getitem (@nil A) 0 = Raise IndexError.
Proof. reflexivity. Qed.

End PyFacts.

(* ===================================================================== *)
(** * Properties of [CreateMtz] *)
(* ===================================================================== *)

Module MtzFacts.
Import MtzUtil PyFacts.

(** Case analysis on every slot of the object. *)
Ltac slots self :=
  destruct self as [[?|] [?|] [?|] [?|] [?|] [?|] [?|]].

(** A goal [exists self', Ok _ = Ok self' /\ ...] once the call has been
    evaluated. *)
Ltac returned :=
  repeat eexists; repeat split;
  unfold columns, add_miller_array, as_mtz_dataset; cbn;
  rewrite <- ?app_assoc; reflexivity.

Section Selection.
Context {A : Type} `{MillerArray A}.

(** Both priority lists are empty of a match exactly when none of the
    five data arrays is present. *)
Lemma priorities_agree (self : CreateMtz A) :
  first_present (amplitude_priority self) = None <->
  first_present (intensity_priority self) = None.
Proof. slots self; simpl; split; intros; congruence. Qed.

(** [process_miller_arrays] as a whole: three columns are added, in the
    order F, I, free flag, each chosen from the slots as they were on
    entry; the call fails when no data array is present, or when the
    free-flag array has no label. *)
Lemma process_miller_arrays_columns (self : CreateMtz A) :
  match first_present (amplitude_priority self),
        first_present (intensity_priority self) with
  | Some f, Some i =>
      match free_array self with
      | None =>
          exists self',
            process_miller_arrays self = Ok self' /\
            intensity_array self' = Some i /\
            columns self' =
              columns self ++
                [("F", f); ("I", i); ("FreeR_flag", generate_r_free_flags i)]
      | Some fa =>
          match info_labels fa with
          | [] => process_miller_arrays self = Raise IndexError
          | l :: _ =>
              exists self',
                process_miller_arrays self = Ok self' /\
                intensity_array self' = Some i /\
                columns self' = columns self ++ [("F", f); ("I", i); (l, fa)]
          end
      end
  | None, None =>
      process_miller_arrays self = Raise (RuntimeError no_data_msg)
  | _, _ => False
  end.
Proof.
  slots self; cbn -[no_data_msg getitem]; try reflexivity;
    try (destruct (info_labels _) as [|l ls] eqn:E;
         rewrite ?getitem_0_cons, ?getitem_0_nil; cbn);
    try reflexivity; returned.
Qed.

(** C1. The column added under the root label "F" follows the amplitude
    priority: the reconstructed amplitude array when present; else the
    one reconstructed from the anomalous amplitude array; else the one
    obtained from the anomalous intensity array (anomalous amplitude,
    then reconstructed); else the plain amplitude array; else the one
    derived from the plain intensity array.  With none of the five
    present the block, and with it the whole operation, raises the
    missing-data error.  When the whole operation returns, that column
    is the first of those it added. *)
Theorem amplitude_column_priority (self : CreateMtz A) :
  match first_present (amplitude_priority self) with
  | Some f =>
      (exists self',
         add_amplitudes self = Ok self' /\
         columns self' = columns self ++ [("F", f)]) /\
      (forall self'',
         process_miller_arrays self = Ok self'' ->
         exists rest, columns self'' = columns self ++ ("F", f) :: rest)
  | None =>
      add_amplitudes self = Raise (RuntimeError no_data_msg) /\
      process_miller_arrays self = Raise (RuntimeError no_data_msg)
  end.
Proof.
  pose proof (process_miller_arrays_columns self) as P.
  destruct (first_present (amplitude_priority self)) as [f|] eqn:Ef.
  - split.
    + clear P. revert Ef. slots self; cbn; intros Ef;
        try discriminate; injection Ef as <-; returned.
    + intros self'' R.
      destruct (first_present (intensity_priority self)) as [i|]; [|tauto].
      destruct (free_array self) as [fa|].
      * destruct (info_labels fa) as [|l ls]; [congruence|].
        destruct P as (s & Ps & _ & Pc). rewrite Ps in R. injection R as <-.
        rewrite Pc. eauto.
      * destruct P as (s & Ps & _ & Pc). rewrite Ps in R. injection R as <-.
        rewrite Pc. eauto.
  - split.
    + clear P. revert Ef. slots self; cbn -[no_data_msg]; intros Ef;
        try discriminate; reflexivity.
    + destruct (first_present (intensity_priority self)); [tauto | exact P].
Qed.

(** C2. The column added under the root label "I" follows the intensity
    priority, read on the slots as they were on entry: the plain
    intensity array when present; else the one derived from the plain
    amplitude array; else the one merged from the anomalous intensity
    array; else the one obtained from the anomalous amplitude array
    (anomalous intensity, then merged); else the one obtained from the
    reconstructed amplitude array along the same merge path.  With none
    present the operation raises the missing-data error.  The slots the
    amplitude block fills on its way do not change the choice. *)
Theorem intensity_column_priority (self : CreateMtz A) :
  match first_present (intensity_priority self) with
  | Some i =>
      (exists s1 s2,
         add_amplitudes self = Ok s1 /\
         add_intensities s1 = Ok s2 /\
         intensity_array s2 = Some i /\
         columns s2 = columns s1 ++ [("I", i)]) /\
      (exists s2,
         add_intensities self = Ok s2 /\
         columns s2 = columns self ++ [("I", i)])
  | None =>
      add_intensities self = Raise (RuntimeError no_data_msg) /\
      process_miller_arrays self = Raise (RuntimeError no_data_msg)
  end.
Proof.
  slots self; cbn -[no_data_msg];
    (split; [ try reflexivity; returned | try reflexivity; returned ]).
Qed.

(** C10. Without a free-flag array the free-flag column is generated
    from the canonical intensity array, the one just added as "I", and
    is labelled "FreeR_flag"; with a free-flag array the column is that
    array under its own first label. *)
Theorem free_flag_column (self : CreateMtz A) (i : A) :
  first_present (intensity_priority self) = Some i ->
  match free_array self with
  | None =>
      exists self' f,
        process_miller_arrays self = Ok self' /\
        free_array self' = Some (generate_r_free_flags i) /\
        columns self' =
          columns self ++
            [("F", f); ("I", i); ("FreeR_flag", generate_r_free_flags i)]
  | Some fa =>
      forall l ls,
        info_labels fa = l :: ls ->
        exists self' f,
          process_miller_arrays self = Ok self' /\
          free_array self' = Some fa /\
          columns self' = columns self ++ [("F", f); ("I", i); (l, fa)]
  end.
Proof.
  intros Ei.
  destruct (free_array self) as [fa|] eqn:Efree.
  - intros l ls El. revert Ei Efree.
    slots self; cbn; intros Ei Efree; try discriminate;
      injection Ei as <-; injection Efree as <-;
      cbn -[getitem]; rewrite El, getitem_0_cons; cbn; returned.
  - revert Ei Efree.
    slots self; cbn; intros Ei Efree; try discriminate;
      injection Ei as <-; returned.
Qed.

(** ** [get_array_types] *)

(** The two amplitude guards test a bound method, which is always true:
    one of them holds for every array, whatever its flavour. *)
Lemma classify_by_anomalous_flag (self : CreateMtz A) (a : A) :
  let self1 :=
    if observation_type_is_None a && looks_like_r_free_flags_info a
    then set_free_array self (Some a) else self in
  classify self a =
    if anomalous_flag a
    then set_anomalous_amplitude_array self1 (Some a)
    else set_amplitude_array self1 (Some a).
Proof.
  unfold classify.
  destruct (observation_type_is_None a), (looks_like_r_free_flags_info a),
    (anomalous_flag a); reflexivity.
Qed.

(** The slots for reconstructed amplitudes, intensities and anomalous
    intensities are never assigned. *)
Lemma get_array_types_untouched (l : list A) (self : CreateMtz A) :
  reconstructed_amplitude_array (get_array_types self l)
    = reconstructed_amplitude_array self /\
  intensity_array (get_array_types self l) = intensity_array self /\
  anomalous_intensity_array (get_array_types self l)
    = anomalous_intensity_array self.
Proof.
  unfold get_array_types. revert self.
  induction l as [|a l IH]; intros self; [easy|].
  cbn [fold_left]. destruct (IH (classify self a)) as (-> & -> & ->).
  rewrite classify_by_anomalous_flag.
  destruct (observation_type_is_None a && looks_like_r_free_flags_info a),
    (anomalous_flag a); easy.
Qed.

(** Each slot keeps one array, the last one stored in it. *)
Lemma get_array_types_last (l : list A) (a : A) (self : CreateMtz A) :
  let self' := get_array_types self (l ++ [a]) in
  if anomalous_flag a
  then anomalous_amplitude_array self' = Some a
  else amplitude_array self' = Some a.
Proof.
  unfold get_array_types. rewrite fold_left_app. cbn [fold_left].
  rewrite classify_by_anomalous_flag.
  destruct (observation_type_is_None a && looks_like_r_free_flags_info a),
    (anomalous_flag a); reflexivity.
Qed.

End Selection.

(** C3, on a merged intensity column alone: the flavour predicates put it
    in [intensity_array]; [get_array_types] puts it in
    [amplitude_array] and leaves [intensity_array] empty. *)
Theorem get_array_types_intensity_misfiled :
  get_array_types init [sym_I] = set_amplitude_array init (Some sym_I) /\
  get_array_types_by_flavor init [sym_I]
    = set_intensity_array init (Some sym_I) /\
  intensity_array (get_array_types init [sym_I]) = None.
Proof. repeat split. Qed.

(** The same input through the whole of [__init__]: the intensities are
    written out unchanged as the amplitude column. *)
Lemma intensity_written_as_amplitude :
  exists self',
    process_miller_arrays (get_array_types init [sym_I]) = Ok self' /\
    nth_error (columns self') 0 = Some ("F", sym_I).
Proof. eexists; split; reflexivity. Qed.

(** [free_flag_column] on a data set with intensities only, and on one
    that brings its own free-flag column. *)
Lemma free_flag_column_witness :
  (exists self' f,
     process_miller_arrays (set_intensity_array init (Some sym_I)) = Ok self' /\
     free_array self' = Some (generate_r_free_flags sym_I) /\
     columns self' =
       [("F", f); ("I", sym_I); ("FreeR_flag", generate_r_free_flags sym_I)]) /\
  (exists self' f,
     process_miller_arrays
       (set_free_array (set_intensity_array init (Some sym_I)) (Some sym_free))
       = Ok self' /\
     free_array self' = Some sym_free /\
     columns self' = [("F", f); ("I", sym_I); ("FreeRflag", sym_free)]).
Proof.
  split.
  - exact (free_flag_column (set_intensity_array init (Some sym_I)) sym_I
             eq_refl).
  - exact (free_flag_column
             (set_free_array (set_intensity_array init (Some sym_I))
                (Some sym_free))
             sym_I eq_refl "FreeRflag" [] eq_refl).
Defined.

End MtzFacts.

(* ===================================================================== *)
(** * Properties of [calculate_intr_box] and of [amore_results] *)
(* ===================================================================== *)

Module AmoreFacts.
Import AmoreUtil PyFacts.

Local Open Scope float_scope.

(** ** [calculate_intr_box] *)

(** C9, as amended. For a structure whose first chain of the first model
    holds the four atoms (0,0,0), (10,0,0), (0,5,0), (0,0,2), however
    grouped into residues, and whose resolution is 2.0, on record or by
    default, [calculate_intr_box] returns (13.5, 8.5, 5.5, 1.5): the
    extents are 10, 5, 2, the radius is 0.75 * 2 = 1.5, and the third
    dimension is 2 + 1.5 + 2.0 = 5.5. *)
Theorem calculate_intr_box_four_atoms (w : world) (model : string)
    (resolution : option float) (chain0 : chain) (chains : list chain)
    (others : list pdb_model) :
  read_pdb w model = Ok (mk_pdb resolution ((chain0 :: chains) :: others)) ->
  concat (concat chain0) = box_atoms ->
  resolution = None \/ resolution = Some 2.0 ->
  calculate_intr_box w model = Ok (13.5, 8.5, 5.5, 1.5).
Proof.
  intros Hread Hatoms Hres.
  unfold calculate_intr_box. rewrite Hread. cbn [bind models best_resolution].
  rewrite getitem_0_cons. cbn [bind].
  rewrite getitem_0_cons. cbn [bind]. rewrite Hatoms.
  destruct Hres as [-> | ->]; vm_compute; reflexivity.
Qed.

Lemma calculate_intr_box_four_atoms_witness :
  calculate_intr_box sound_models_world "models/good01.pdb"
    = Ok (13.5, 8.5, 5.5, 1.5).
Proof.
  apply (calculate_intr_box_four_atoms sound_models_world "models/good01.pdb"
           (Some 2.0) [[box_atoms]] [] []).
  - reflexivity.
  - reflexivity.
  - right. reflexivity.
Defined.

(** C9, as stated: the result is not (13.5, 8.5, 5.0, 1.5). *)
Lemma calculate_intr_box_not_5_0 :
  calculate_intr_box sound_models_world "models/good01.pdb"
    <> Ok (13.5, 8.5, 5.0, 1.5).
Proof.
  intros E.
  assert (D := f_equal
            (fun r : res (float * float * float * float) =>
               match r with
               | Ok (_, _, z, _) => PrimFloat.eqb z 5.0
               | Raise _ => false
               end) E).
  vm_compute in D. discriminate D.
Qed.

(** A chain without atoms makes [max] raise. *)
Lemma calculate_intr_box_no_atoms :
  calculate_intr_box two_models_world "models/empty1.pdb" = Raise ValueError.
Proof. reflexivity. Qed.

(** ** The final loop of [return_z_score_results] *)

(** [count] stays 0, so both guards hold at every turn and every
    solution is appended. *)
Lemma append_solutions_all (clogs : bool) (sols out : list result) :
  append_solutions clogs 0 sols out = out ++ sols.
Proof.
  revert out. induction sols as [|x sols IH]; intros out; cbn.
  - now rewrite app_nil_r.
  - destruct clogs; cbn; rewrite IH, <- app_assoc; reflexivity.
Qed.

Section Ranking.
Context {A K : Type} (lt : K -> K -> bool) (key : A -> K).

Lemma insert_sorted_length (x : A) (l : list A) :
  length (insert_sorted lt key x l) = S (length l).
Proof.
  induction l as [|y l IH]; cbn; [reflexivity|].
  destruct (lt (key y) (key x)); cbn; [now rewrite IH | reflexivity].
Qed.

Lemma insert_sorted_perm (x : A) (l : list A) :
  insert_sorted lt key x l ≡ₚ x :: l.
Proof.
  induction l as [|y l IH]; cbn; [reflexivity|].
  destruct (lt (key y) (key x)); [|reflexivity].
  rewrite IH. apply Permutation_swap.
Qed.

Lemma sort_stable_perm (l : list A) : sort_stable lt key l ≡ₚ l.
Proof.
  induction l as [|x l IH]; cbn; [reflexivity|].
  rewrite insert_sorted_perm, IH. reflexivity.
Qed.

(** [sorted] rearranges and neither drops nor repeats an element. *)
Lemma sorted_perm (reverse : bool) (l : list A) :
  Py.sorted lt key reverse l ≡ₚ l.
Proof.
  unfold Py.sorted. destruct reverse.
  - rewrite <- Permutation_rev, sort_stable_perm, <- Permutation_rev. reflexivity.
  - apply sort_stable_perm.
Qed.
End Ranking.

Section Scan.
Variable pyfloat : string -> option float.

(** Whatever the directory, [sorted_results] grows by as many records as
    [results] holds at the end: nothing is cut off. *)
Lemma return_z_score_results_keeps_all (w : world) (self self' : amore_results)
    (log_dir : string) :
  return_z_score_results pyfloat w self log_dir = Ok self' ->
  length (sorted_results self')
    = (length (sorted_results self) + length (results self'))%nat.
Proof.
  unfold return_z_score_results.
  destruct (scan_logs _ _ _ _ _ _) as [acc|e]; cbn [bind]; [|discriminate].
  intros [= <-]. cbn [sorted_results results].
  rewrite append_solutions_all, length_app.
  f_equal. apply Permutation_length.
  exact (sorted_perm PrimFloat.ltb CC_F_Z_score true (snd acc)).
Qed.

(** ** Lines the scan passes over *)

Lemma scan_lines_passed_over (self_score : float) (pre rest : list string)
    (locals : option line_values) :
  Forall (passed_over pyfloat self_score) pre ->
  scan_lines pyfloat self_score (pre ++ rest) locals
    = scan_lines pyfloat self_score rest locals.
Proof.
  induction 1 as [|line pre Hline _ IH]; [reflexivity|].
  cbn [app scan_lines]. destruct Hline as [Hs | (z & Hz & Hlt)].
  - now rewrite Hs.
  - destruct (startswith line sentinel); [|exact IH].
    rewrite Hz. cbn [bind]. now rewrite Hlt.
Qed.

(** The first line that starts with the sentinel and whose Z-score
    exceeds the threshold is the one parsed; the lines after it are not
    read. *)
Lemma scan_lines_first_qualifying (self_score z : float)
    (pre post : list string) (line : string) (locals : option line_values) :
  Forall (passed_over pyfloat self_score) pre ->
  startswith line sentinel = true ->
  float_at pyfloat (split line) (-3) = Ok z ->
  PrimFloat.ltb self_score z = true ->
  scan_lines pyfloat self_score (pre ++ line :: post) locals
    = do v <- parse_fields pyfloat (split line); Ok (Some v).
Proof.
  intros Hpre Hs Hz Hlt. rewrite scan_lines_passed_over by exact Hpre.
  cbn [scan_lines]. rewrite Hs, Hz. cbn [bind]. now rewrite Hlt.
Qed.

(** A log without a qualifying line still has a record appended: the
    values are those left by the last log that had one. *)
Lemma scan_log_stale (w : world) (log_dir log : string) (self_score : float)
    (lines : list string) (v : line_values) (rs : list result) :
  open_lines w (path_join log_dir log) = Ok lines ->
  Forall (passed_over pyfloat self_score) lines ->
  scan_log pyfloat w log_dir self_score (Some v, rs) log
    = Ok (Some v,
          rs ++ [result_of (if contains "clogs" log_dir then slice_to 6 log
                            else slice_to 7 log) v]).
Proof.
  intros Hopen Hlines. unfold scan_log. rewrite Hopen. cbn [bind fst snd].
  rewrite <- (app_nil_r lines), scan_lines_passed_over by exact Hlines.
  reflexivity.
Qed.

(** And when no log before it had one, the call ends on the unassigned
    locals. *)
Lemma scan_log_unbound (w : world) (log_dir log : string) (self_score : float)
    (lines : list string) (rs : list result) :
  open_lines w (path_join log_dir log) = Ok lines ->
  Forall (passed_over pyfloat self_score) lines ->
  scan_log pyfloat w log_dir self_score (None, rs) log
    = Raise UnboundLocalError.
Proof.
  intros Hopen Hlines. unfold scan_log. rewrite Hopen. cbn [bind fst snd].
  rewrite <- (app_nil_r lines), scan_lines_passed_over by exact Hlines.
  reflexivity.
Qed.

(** ** Lines whose correlation fields do not parse *)





End Scan.



(** C6. Twenty-one logs in a [clogs] directory, each with a solution:
    the call returns and [sorted_results] holds twenty-one records, one
    more than the cap of 20. *)
Theorem sorted_results_not_truncated :
  exists self',
    return_z_score_results decimal_float many_logs_world new_amore_results
      "work/clogs" = Ok self' /\
    contains "clogs" "work/clogs" = true /\
    length (sorted_results self') = 21%nat.
Proof. eexists. split; [vm_compute; reflexivity | split; reflexivity]. Qed.

(** The order itself is as the design document has it: for the scores
    5.0, 9.0, 3.0, 9.0 the ranking is 9.0, 9.0, 5.0, 3.0 with the two
    9.0 in the order their logs were met. *)
Lemma ranking_order_example :
  exists self',
    return_z_score_results decimal_float four_logs_world new_amore_results
      "work/clogs" = Ok self' /\
    map log_name (sorted_results self')
      = ["2bbb_A"; "4ddd_A"; "1aaa_A"; "3ccc_A"].
Proof. eexists. split; vm_compute; reflexivity. Qed.

(** C8. A log whose only solution line has the Z-score 0.0 is not
    skipped.  After a log with a solution it adds a record of its own,
    under its own name, with the values of the log before it; alone, it
    ends the call with [UnboundLocalError]. *)
Theorem log_without_solution_not_skipped :
  (exists self',
     return_z_score_results decimal_float stale_logs_world new_amore_results
       "work/clogs" = Ok self' /\
     results self' = [result_of "1aaa_A" (solution_values 6.5);
                      result_of "2bbb_A" (solution_values 6.5)]) /\
  return_z_score_results decimal_float lone_log_world new_amore_results
    "work/clogs" = Raise UnboundLocalError.
Proof. split; [eexists; split|]; vm_compute; reflexivity. Qed.

End AmoreFacts.

(* ===================================================================== *)
(** * Properties of the worker pool of [amore_run] *)
(* ===================================================================== *)

Module PoolFacts.
Import AmoreUtil.

Section Pool.
Variables (w : world) (o : optd).

(** A worker list around the worker at index [i]. *)
Lemma workers_split (ws : list worker) (i : nat) (wk : worker) :
  ws !! i = Some wk ->
  exists l1 l2,
    ws = l1 ++ wk :: l2 /\
    forall wk', <[i := wk']> ws = l1 ++ wk' :: l2.
Proof.
  intros Hi. exists (take i ws), (drop (S i) ws). split.
  - symmetry. now apply take_drop_middle.
  - intros wk'. apply insert_take_drop. now apply lookup_lt_Some with wk.
Qed.

Lemma step_inv (i : nat) (s s' : pool) :
  step w o i s = Some s' -> step_kind w o s s' i.
Proof.
  unfold step. destruct (workers s !! i) as [wk|] eqn:Hi; [|discriminate].
  destruct (workers_split _ _ _ Hi) as (l1 & l2 & Hws & Hins).
  destruct (w_pc wk) as [| |model| |e] eqn:Hpc; try discriminate.
  - destruct (job_queue s) as [|m q] eqn:Hq; intros [= <-]; unfold set_worker;
      rewrite Hins, ?Hq.
    + now apply (queue_seen_empty w o _ _ _ wk l1 l2).
    + apply (queue_seen_filled w o _ _ _ wk l1 l2); rewrite ?Hq; easy.
  - destruct (job_queue s) as [|m q] eqn:Hq; intros [= <-]; unfold set_worker;
      rewrite Hins, ?Hq.
    + now apply (get_timed_out w o _ _ _ wk l1 l2).
    + now apply (got_model w o _ _ _ wk l1 l2 m q).
  - intros [= <-]. rewrite Hins.
    destruct (_amore_run w o (w_name wk) model) as [name|e] eqn:Hrun.
    + now apply (pipeline_returned w o _ _ _ wk l1 l2 model name).
    + now apply (pipeline_raised w o _ _ _ wk l1 l2 model e).
Qed.

(** ** Every run ends *)

Lemma measure_split (q : list string) (l1 l2 : list worker) (wk : worker)
    (p : list (nat * string)) :
  measure (mk_pool q (l1 ++ wk :: l2) p)
    = 3 * length q + pc_weight (w_pc wk)
      + sum_list_with (fun wk => pc_weight (w_pc wk)) (l1 ++ l2).
Proof.
  unfold measure. cbn [job_queue workers].
  rewrite !sum_list_with_app. cbn [sum_list_with]. lia.
Qed.

Lemma step_measure (i : nat) (s s' : pool) :
  step w o i s = Some s' -> measure s' < measure s.
Proof.
  intros Hstep. destruct (step_inv _ _ _ Hstep) as
    [wk l1 l2 Hws Hpc Hq ->|wk l1 l2 Hws Hpc Hq ->|wk l1 l2 Hws Hpc Hq ->
    |wk l1 l2 m q Hws Hpc Hq ->|wk l1 l2 m name Hws Hpc Hrun ->
    |wk l1 l2 m e Hws Hpc Hrun ->];
    destruct s as [q0 ws p0]; cbn [job_queue workers processed] in *;
    subst; rewrite !measure_split; cbn [w_pc]; rewrite Hpc;
    cbn [pc_weight length]; lia.
Qed.

Lemma measure_init (models_dir : string) :
  measure (amore_run w o models_dir)
    = 3 * length (queued_models w models_dir) + 2 * nproc o.
Proof.
  unfold measure, amore_run. cbn [job_queue workers]. f_equal.
  generalize (nproc o). intros k.
  induction k as [|k IH]; [reflexivity|].
  cbn [replicate sum_list_with w_pc pc_weight]. rewrite IH. lia.
Qed.

Lemma steps_measure (n : nat) (s s' : pool) :
  steps w o n s s' -> n + measure s' <= measure s.
Proof.
  induction 1 as [s|n i s s1 s2 Hstep _ IH]; [lia|].
  apply step_measure in Hstep. lia.
Qed.

(** ** While a worker has not ended, the pool can move *)

Lemma not_all_ended (ws : list worker) :
  forallb ended ws = false ->
  exists i wk, ws !! i = Some wk /\ ended wk = false.
Proof.
  induction ws as [|wk ws IH]; cbn [forallb]; [discriminate|].
  destruct (ended wk) eqn:E; cbn [andb].
  - intros H. destruct (IH H) as (i & wk' & Hi & He).
    exists (S i), wk'. easy.
  - intros _. exists 0, wk. easy.
Qed.

Lemma step_progress (s : pool) :
  all_ended s = false -> exists i s', step w o i s = Some s'.
Proof.
  intros H. destruct (not_all_ended _ H) as (i & wk & Hi & He).
  exists i. unfold step. rewrite Hi. unfold ended in He.
  destruct (w_pc wk); try discriminate; try destruct (job_queue s); eauto.
Qed.

(** ** No model is lost or doubled *)

Lemma running_replicate (n : nat) (name : option string) :
  omap running (replicate n (mk_worker AtTest name)) = [].
Proof. induction n as [|n IH]; [reflexivity | exact IH]. Qed.

Lemma ended_replicate (n : nat) (name : option string) :
  ~ Exists (fun wk => ended wk = true) (replicate n (mk_worker AtTest name)).
Proof.
  induction n as [|n IH]; cbn [replicate]; intros H; inversion H; subst.
  - cbn in *. discriminate.
  - now apply IH.
Qed.

Lemma pool_inv_init (models_dir : string) :
  pool_inv (queued_models w models_dir) (amore_run w o models_dir).
Proof.
  split.
  - unfold accounted, amore_run. cbn [processed workers job_queue map].
    now rewrite running_replicate.
  - intros H. now apply ended_replicate in H.
Qed.


Lemma omap_running_split (l1 l2 : list worker) (wk : worker) :
  omap running (l1 ++ wk :: l2)
    = omap running l1
      ++ match running wk with Some m => [m] | None => [] end
      ++ omap running l2.
Proof.
  rewrite omap_app. f_equal. cbn [omap list_omap].
  now destruct (running wk).
Qed.






(** C5, as amended. An exception of the per-model pipeline is not
    caught in the loop of [run]: it ends the worker it occurs in, which
    takes no further step.  The queue and the sibling workers are left
    as they were, so the models still queued are processed if a sibling
    is left to take them. *)
Theorem pipeline_failure_ends_worker (s : pool) (i : nat) (wk : worker)
    (model : string) (e : exn) :
  workers s !! i = Some wk ->
  w_pc wk = Running model ->
  _amore_run w o (w_name wk) model = Raise e ->
  exists s',
    step w o i s = Some s' /\
    workers s' !! i = Some (mk_worker (Died e) (w_name wk)) /\
    step w o i s' = None /\
    job_queue s' = job_queue s /\
    (forall j, j <> i -> workers s' !! j = workers s !! j).
Proof.
  intros Hi Hpc Hrun. eexists. split; [|split; [|split; [|split]]].
  - unfold step. rewrite Hi, Hpc, Hrun. reflexivity.
  - cbn [workers]. apply list_lookup_insert_eq. now apply lookup_lt_Some with wk.
  - unfold step. cbn [workers].
    rewrite list_lookup_insert_eq by now apply lookup_lt_Some with wk.
    reflexivity.
  - reflexivity.
  - intros j Hj. cbn [workers]. apply list_lookup_insert_ne. congruence.
Qed.

End Pool.

(** ** On the two worked directories *)

(** One worker, two models, the first one without atoms: the worker dies
    on the first and the second stays queued. *)
Lemma one_worker_dies_on_empty_model :
  run_schedule two_models_world (contaminant_search 1) [0; 0; 0; 0; 0; 0]
    (amore_run two_models_world (contaminant_search 1) "models")
  = mk_pool ["models/good01.pdb"]
            [mk_worker (Died ValueError) None]
            [(0, "models/empty1.pdb")].
Proof. reflexivity. Qed.


(** With no worker at all nothing is processed either. *)
Lemma every_model_once_fails_without_worker :
  ~ every_model_once sound_models_world (contaminant_search 0) "models".
Proof.
  intros C.
  destruct (C ltac:(cbn; lia) 0
              (amore_run sound_models_world (contaminant_search 0) "models"))
    as [_ Hq].
  - apply steps_refl.
  - reflexivity.
  - discriminate Hq.
Qed.

(** C5, as stated: the worker that met the exception does not return to
    the test of the queue. *)
Lemma failure_is_not_caught :
  ~ failure_is_caught two_models_world (contaminant_search 1).
Proof.
  intros C.
  destruct (C (mk_pool ["models/good01.pdb"]
                 [mk_worker (Running "models/empty1.pdb") None] [])
              0 (mk_worker (Running "models/empty1.pdb") None)
              "models/empty1.pdb" ValueError)
    as (s' & wk' & Hstep & Hwk & Hpc); try reflexivity.
  injection Hstep as <-. injection Hwk as <-. discriminate Hpc.
Qed.

Lemma pipeline_failure_ends_worker_witness :
  exists s',
    step two_models_world (contaminant_search 1) 0
      (mk_pool ["models/good01.pdb"]
         [mk_worker (Running "models/empty1.pdb") None] []) = Some s' /\
    workers s' !! 0 = Some (mk_worker (Died ValueError) None) /\
    step two_models_world (contaminant_search 1) 0 s' = None /\
    job_queue s' = ["models/good01.pdb"] /\
    (forall j, j <> 0 -> workers s' !! j
       = [mk_worker (Running "models/empty1.pdb") None] !! j).
Proof.
  apply (pipeline_failure_ends_worker two_models_world (contaminant_search 1)
           (mk_pool ["models/good01.pdb"]
              [mk_worker (Running "models/empty1.pdb") None] [])
           0 (mk_worker (Running "models/empty1.pdb") None)
           "models/empty1.pdb" ValueError); reflexivity.
Defined.


End PoolFacts.

(* ===================================================================== *)
(** * More on [CreateMtz]: what [process_miller_arrays] leaves behind,
      [get_array_types] and the free flags, [__init__] and [output_mtz] *)
(* ===================================================================== *)

Module SelectorFacts.
Import MtzUtil MtzFile PyFacts MtzFacts.

Section Selector.
Context {A : Type} `{MillerArray A}.

(** When [process_miller_arrays] returns, the dataset exists and holds
    the old columns followed by three new ones. *)
Lemma process_miller_arrays_dataset (self self' : CreateMtz A) :
  process_miller_arrays self = Ok self' ->
  exists f i l fr,
    mtz_dataset self' = Some (columns self ++ [("F", f); ("I", i); (l, fr)]) /\
    intensity_array self' = Some i /\
    free_array self' = Some fr.
Proof.
  slots self; cbn -[getitem no_data_msg]; try discriminate;
    try (destruct (info_labels _) as [|l ls] eqn:E;
         rewrite ?getitem_0_cons, ?getitem_0_nil; cbn; try discriminate);
    intros [= <-]; repeat eexists; cbn;
    unfold add_miller_array, as_mtz_dataset; cbn;
    rewrite <- ?app_assoc; reflexivity.
Qed.

(** The output never holds more or fewer than the three columns: every
    successful call appends, in this order, a column "F", a column "I"
    and a free-flag column, and keeps what the dataset held before. *)
Theorem process_adds_three_columns (self self' : CreateMtz A) :
  process_miller_arrays self = Ok self' ->
  exists f i l fr,
    columns self' = columns self ++ [("F", f); ("I", i); (l, fr)] /\
    intensity_array self' = Some i /\
    free_array self' = Some fr.
Proof.
  intros R. destruct (process_miller_arrays_dataset _ _ R)
    as (f & i & l & fr & Hd & Hi & Hf).
  exists f, i, l, fr. unfold columns at 1. rewrite Hd. easy.
Qed.


(** A slot that is filled on entry holds the same array on exit: the
    derivations only fill empty slots. *)
Theorem process_keeps_filled_slots (self self' : CreateMtz A) :
  process_miller_arrays self = Ok self' ->
  (forall a, amplitude_array self = Some a -> amplitude_array self' = Some a) /\
  (forall a, anomalous_amplitude_array self = Some a ->
             anomalous_amplitude_array self' = Some a) /\
  (forall a, reconstructed_amplitude_array self = Some a ->
             reconstructed_amplitude_array self' = Some a) /\
  (forall a, intensity_array self = Some a -> intensity_array self' = Some a) /\
  (forall a, anomalous_intensity_array self = Some a ->
             anomalous_intensity_array self' = Some a) /\
  (forall a, free_array self = Some a -> free_array self' = Some a).
Proof.
  slots self; cbn -[getitem no_data_msg]; try discriminate;
    try (destruct (info_labels _) as [|l ls] eqn:E;
         rewrite ?getitem_0_cons, ?getitem_0_nil; cbn; try discriminate);
    intros [= <-]; cbn; repeat split; intros ? [= <-]; reflexivity.
Qed.

(** ** [get_array_types] *)

(** The free-flag slot after one array. *)
Lemma classify_free_array (self : CreateMtz A) (a : A) :
  free_array (classify self a)
    = if free_like a then Some a else free_array self.
Proof.
  rewrite classify_by_anomalous_flag. unfold free_like.
  destruct (observation_type_is_None a && looks_like_r_free_flags_info a),
    (anomalous_flag a); reflexivity.
Qed.

Lemma classify_mtz_dataset (self : CreateMtz A) (a : A) :
  mtz_dataset (classify self a) = mtz_dataset self.
Proof.
  rewrite classify_by_anomalous_flag.
  destruct (observation_type_is_None a && looks_like_r_free_flags_info a),
    (anomalous_flag a); reflexivity.
Qed.

Lemma get_array_types_mtz_dataset (l : list A) (self : CreateMtz A) :
  mtz_dataset (get_array_types self l) = mtz_dataset self.
Proof.
  unfold get_array_types. revert self.
  induction l as [|a l IH]; intros self; [reflexivity|].
  cbn [fold_left]. now rewrite IH, classify_mtz_dataset.
Qed.

(** The free-flag slot holds the last array of the file that has no
    observation type and whose info looks like free flags; without such
    an array the slot is left as it was. *)
Theorem get_array_types_free_slot (l : list A) (self : CreateMtz A) :
  free_array (get_array_types self l)
    = match last (filter (fun a => free_like a = true) l) with
      | Some a => Some a
      | None => free_array self
      end.
Proof.
  unfold get_array_types. revert self.
  induction l as [|a l IH]; intros self; [reflexivity|].
  cbn [fold_left]. rewrite IH, classify_free_array.
  rewrite filter_cons. destruct (decide (free_like a = true)) as [Ht|Hf].
  - rewrite Ht. rewrite last_cons.
    now destruct (last (filter _ l)).
  - apply not_true_is_false in Hf. rewrite Hf. reflexivity.
Qed.

(** ** [__init__] followed by [output_mtz] *)

(** An object that [__init__] returned can always be written, and what
    is written is exactly three columns: "F", "I" and the free flags. *)
Theorem init_then_output_mtz (file : reflection_file A)
    (input_reflection_file output_mtz_file : string) (self : CreateMtz A) :
  CreateMtz__init__ file input_reflection_file = Ok self ->
  exists f i l fr,
    output_mtz self output_mtz_file
      = Ok (output_mtz_file, [("F", f); ("I", i); (l, fr)]).
Proof.
  unfold CreateMtz__init__. destruct (is_ccp4_mtz file); cbn [negb];
    [|discriminate].
  intros R. destruct (process_miller_arrays_dataset _ _ R)
    as (f & i & l & fr & Hd & _ & _).
  exists f, i, l, fr. unfold output_mtz. rewrite Hd. unfold columns.
  now rewrite get_array_types_mtz_dataset.
Qed.

End Selector.

(** ** On worked inputs *)

Lemma process_adds_three_columns_witness :
  exists f i l fr,
    columns (set_mtz_dataset (set_intensity_array init (Some sym_I)) None)
    ++ [("F", f); ("I", i); (l, fr)]
    = [("F", sym_retype xray_amplitude "amplitude" sym_I); ("I", sym_I);
       ("FreeR_flag", generate_r_free_flags sym_I)].
Proof.
  destruct (process_adds_three_columns
              (set_intensity_array init (Some sym_I))
              _ eq_refl) as (f & i & l & fr & Hc & _ & _).
  exists f, i, l, fr. exact (eq_sym Hc).
Defined.


Lemma process_keeps_filled_slots_witness :
  exists self',
    process_miller_arrays
      (set_anomalous_intensity_array init (Some sym_Ianom)) = Ok self' /\
    anomalous_intensity_array self' = Some sym_Ianom.
Proof.
  eexists. split; [reflexivity|].
  exact (proj1 (proj2 (proj2 (proj2 (proj2
           (process_keeps_filled_slots
              (set_anomalous_intensity_array init (Some sym_Ianom)) _ eq_refl)))))
           sym_Ianom eq_refl).
Defined.

Lemma init_then_output_mtz_witness :
  exists f i l fr,
    match CreateMtz__init__ typical_file "in.mtz" with
    | Ok self => output_mtz self "out.mtz"
    | Raise e => Raise e
    end = Ok ("out.mtz", [("F", f); ("I", i); (l, fr)]).
Proof.
  destruct (CreateMtz__init__ typical_file "in.mtz") as [self|e] eqn:E;
    [|discriminate E].
  exact (init_then_output_mtz typical_file "in.mtz" "out.mtz" self E).
Defined.

End SelectorFacts.

(* ===================================================================== *)
(** * [get_labels] and [crystal_data] *)
(* ===================================================================== *)

Module LabelFacts.
Import MtzUtil MtzFile PyStr PyFacts.

(** ** Lists: [in], [index] and indexing *)

Lemma list_in_In (x : string) (l : list string) :
  list_in x l = true <-> In x l.
Proof.
  unfold list_in. rewrite existsb_exists. split.
  - intros (y & Hy & E). apply String.eqb_eq in E. now subst.
  - intros Hx. exists x. split; [exact Hx | apply String.eqb_refl].
Qed.

(** [l.index(x)] is the first position that holds [x]. *)
Lemma list_index_first (x : string) (l : list string) (k : nat) :
  list_index x l = Ok k ->
  nth_error l k = Some x /\ forall j, j < k -> nth_error l j <> Some x.
Proof.
  revert k. induction l as [|y l IH]; intros k; cbn [list_index];
    [discriminate|].
  destruct (String.eqb y x) eqn:E.
  - intros [= <-]. apply String.eqb_eq in E. subst. split; [reflexivity|].
    intros j Hj. lia.
  - destruct (list_index x l) as [k'|e] eqn:Ek; cbn [bind]; [|discriminate].
    intros [= <-]. destruct (IH k' eq_refl) as [Hn Hfirst]. split; [exact Hn|].
    intros [|j] Hj; cbn [nth_error].
    + intros [= ->]. rewrite String.eqb_refl in E. discriminate.
    + apply Hfirst. lia.
Qed.

(** After the test [x in l], [l.index(x)] returns. *)
Lemma list_index_total (x : string) (l : list string) :
  list_in x l = true -> exists k, list_index x l = Ok k /\ k < length l.
Proof.
  induction l as [|y l IH]; cbn [list_in existsb list_index length];
    [discriminate|].
  rewrite String.eqb_sym. destruct (String.eqb y x); cbn [orb].
  - intros _. exists 0. split; [reflexivity | lia].
  - intros Hin. destruct (IH Hin) as (k & -> & Hk). exists (S k).
    split; [reflexivity | lia].
Qed.

Lemma getitem_nat {B : Type} (l : list B) (k : nat) (b : B) :
  getitem l (Z.of_nat k) = Ok b -> nth_error l k = Some b.
Proof.
  unfold getitem. cbv zeta.
  replace (Z.of_nat k <? 0)%Z with false by (symmetry; apply Z.ltb_ge; lia).
  cbv iota.
  replace (Z.of_nat k <? 0)%Z with false by (symmetry; apply Z.ltb_ge; lia).
  cbn [orb]. destruct (Z.of_nat (length l) <=? Z.of_nat k)%Z; [discriminate|].
  rewrite Nat2Z.id. destruct (nth_error l k); [|discriminate].
  now intros [= <-].
Qed.

Lemma getitem_nat_total {B : Type} (l : list B) (k : nat) :
  k < length l -> exists b, getitem l (Z.of_nat k) = Ok b.
Proof.
  intros Hk. unfold getitem. cbv zeta.
  replace (Z.of_nat k <? 0)%Z with false by (symmetry; apply Z.ltb_ge; lia).
  cbv iota.
  replace (Z.of_nat k <? 0)%Z with false by (symmetry; apply Z.ltb_ge; lia).
  replace (Z.of_nat (length l) <=? Z.of_nat k)%Z with false
    by (symmetry; apply Z.leb_gt; lia).
  cbn [orb]. rewrite Nat2Z.id.
  destruct (nth_error l k) as [b|] eqn:E; [eauto|].
  apply nth_error_None in E. lia.
Qed.

(** ** The anomalous pair *)

(** The [try] block returns a label of type "D" with its sigma label, or
    raises [RuntimeError], or, when the labels are fewer than the
    types, [IndexError]. *)
Lemma anomalous_labels_ok (mtz_file : string) (ctypes clabels : list string)
    (d sd : string) :
  anomalous_labels mtz_file ctypes clabels = Ok (d, sd) ->
  sd = ("SIG" ++ d)%string /\ In d clabels /\ In sd clabels /\
  list_in "D" ctypes = true.
Proof.
  unfold anomalous_labels.
  destruct (list_in "D" ctypes) eqn:HD; cbn [negb]; [|discriminate].
  destruct (list_index "D" ctypes) as [k|e]; cbn [bind]; [|discriminate].
  destruct (getitem clabels (Z.of_nat k)) as [dano|e] eqn:Hg; cbn [bind];
    [|discriminate].
  destruct (list_in ("SIG" ++ dano) clabels) eqn:Hs; cbn [negb]; [|discriminate].
  intros [= <- <-]. repeat split.
  - apply getitem_nat in Hg. now apply nth_error_In in Hg.
  - now apply list_in_In.
Qed.

Lemma anomalous_labels_safe (mtz_file : string) (ctypes clabels : list string) :
  length ctypes <= length clabels ->
  (exists d sd, anomalous_labels mtz_file ctypes clabels = Ok (d, sd)) \/
  (exists msg, anomalous_labels mtz_file ctypes clabels
                 = Raise (RuntimeError msg)).
Proof.
  intros Hlen. unfold anomalous_labels.
  destruct (list_in "D" ctypes) eqn:HD; cbn [negb]; [|right; eauto].
  destruct (list_index_total _ _ HD) as (k & -> & Hk). cbn [bind].
  destruct (getitem_nat_total clabels k ltac:(lia)) as (dano & ->). cbn [bind].
  destruct (list_in ("SIG" ++ dano) clabels); cbn [negb]; [left|right]; eauto.
Qed.

(** ** The free-flag column *)

(** A candidate label is not the empty string, so the test [if free:]
    holds once a candidate was found. *)
Lemma free_candidate_truthy (content : mtz_content) (label : string) :
  free_candidate content label = true -> truthy_str (Some label) = true.
Proof.
  unfold free_candidate. destruct label; [discriminate | reflexivity].
Qed.

Lemma free_step_candidate (content : mtz_content) (acc : option string * nat)
    (label : string) :
  free_step content acc label
    = if free_candidate content label
      then (Some label, if truthy_str (fst acc) then S (snd acc) else snd acc)
      else acc.
Proof.
  unfold free_step, free_candidate.
  destruct (contains "free" (lower label)); [|reflexivity].
  now destruct (both_flag_classes _).
Qed.

(** The loop over the labels: the last candidate is kept, and each
    candidate after the first logs one warning. *)
Lemma free_scan (content : mtz_content) (labels : list string)
    (free : option string) (warnings : nat) :
  (free = None \/ truthy_str free = true) ->
  let found := filter (fun l => free_candidate content l = true) labels in
  fold_left (free_step content) labels (free, warnings)
    = (match last found with Some l => Some l | None => free end,
       warnings + length found
       - match free with
         | None => match found with [] => 0 | _ => 1 end
         | Some _ => 0
         end).
Proof.
  revert free warnings.
  induction labels as [|l labels IH]; intros free warnings Hfree; cbn zeta.
  - cbn. destruct free; f_equal; lia.
  - cbn [fold_left]. rewrite free_step_candidate, filter_cons.
    destruct (decide (free_candidate content l = true)) as [Hc|Hc].
    + rewrite Hc. cbn [fst snd].
      rewrite (IH (Some l)) by (right; now apply free_candidate_truthy with content).
      rewrite last_cons. cbn [length].
      destruct Hfree as [-> | Ht].
      * cbn [truthy_str]. f_equal; [now destruct (last _) | lia].
      * rewrite Ht. destruct free as [f0|]; [|discriminate].
        f_equal; [now destruct (last _) | lia].
    + apply not_true_is_false in Hc. rewrite Hc. now apply IH.
Qed.

(** ** [get_labels] *)

Section GetLabels.
Context {A : Type}.

(** What a call that returns has found: the amplitude and the intensity
    label are columns of the file, each with its sigma column, named
    "SIG" followed by the label; the anomalous labels come as a pair or
    not at all. *)
Theorem get_labels_sound (file : reflection_file A) (mtz_file : string)
    (r : labels) (warnings : nat) :
  get_labels file mtz_file = Ok (r, warnings) ->
  exists content,
    file_content file = Some content /\
    In (l_f r) (column_labels content) /\
    l_fp r = ("SIG" ++ l_f r)%string /\ In (l_fp r) (column_labels content) /\
    In (l_i r) (column_labels content) /\
    l_sigi r = ("SIG" ++ l_i r)%string /\ In (l_sigi r) (column_labels content) /\
    match l_dano r, l_sigdano r with
    | Some d, Some sd =>
        sd = ("SIG" ++ d)%string /\
        In d (column_labels content) /\ In sd (column_labels content)
    | None, None => True
    | _, _ => False
    end.
Proof.
  unfold get_labels. destruct (is_ccp4_mtz file); cbn [negb]; [|discriminate].
  destruct (file_content file) as [content|]; [|discriminate].
  destruct (list_in "F" (column_types content)); cbn [negb]; [|discriminate].
  destruct (list_index "F" _) as [kf|e]; cbn [bind]; [|discriminate].
  destruct (getitem _ (Z.of_nat kf)) as [f|e] eqn:Hf; cbn [bind]; [|discriminate].
  destruct (list_in ("SIG" ++ f) _) eqn:Hfp; cbn [negb]; [|discriminate].
  destruct (list_in "J" (column_types content)); cbn [negb]; [|discriminate].
  destruct (list_index "J" _) as [ki|e]; cbn [bind]; [|discriminate].
  destruct (getitem _ (Z.of_nat ki)) as [i|e] eqn:Hi; cbn [bind]; [|discriminate].
  destruct (list_in ("SIG" ++ i) _) eqn:Hsi; cbn [negb]; [|discriminate].
  destruct (anomalous_labels _ _ _) as [[d sd]|e] eqn:Ha; cbn [bind].
  - intros [= <- _]. cbn. exists content.
    apply getitem_nat, nth_error_In in Hf, Hi.
    apply list_in_In in Hfp, Hsi.
    destruct (anomalous_labels_ok _ _ _ _ _ Ha) as (-> & Hd & Hsd & _).
    repeat split; assumption.
  - destruct e; cbn [bind]; try discriminate.
    intros [= <- _]. cbn. exists content.
    apply getitem_nat, nth_error_In in Hf, Hi.
    apply list_in_In in Hfp, Hsi. repeat split; assumption.
Qed.

(** The amplitude label is the label at the position of the first
    column of type "F", the intensity label the one at the first column
    of type "J". *)
Theorem get_labels_first_typed_column (file : reflection_file A)
    (mtz_file : string) (r : labels) (warnings : nat) :
  get_labels file mtz_file = Ok (r, warnings) ->
  exists content kf ki,
    file_content file = Some content /\
    nth_error (column_types content) kf = Some "F" /\
    nth_error (column_labels content) kf = Some (l_f r) /\
    (forall j, j < kf -> nth_error (column_types content) j <> Some "F") /\
    nth_error (column_types content) ki = Some "J" /\
    nth_error (column_labels content) ki = Some (l_i r) /\
    (forall j, j < ki -> nth_error (column_types content) j <> Some "J").
Proof.
  unfold get_labels. destruct (is_ccp4_mtz file); cbn [negb]; [|discriminate].
  destruct (file_content file) as [content|]; [|discriminate].
  destruct (list_in "F" (column_types content)); cbn [negb]; [|discriminate].
  destruct (list_index "F" _) as [kf|e] eqn:Hkf; cbn [bind]; [|discriminate].
  destruct (getitem _ (Z.of_nat kf)) as [f|e] eqn:Hf; cbn [bind]; [|discriminate].
  destruct (list_in ("SIG" ++ f) _); cbn [negb]; [|discriminate].
  destruct (list_in "J" (column_types content)); cbn [negb]; [|discriminate].
  destruct (list_index "J" _) as [ki|e] eqn:Hki; cbn [bind]; [|discriminate].
  destruct (getitem _ (Z.of_nat ki)) as [i|e] eqn:Hi; cbn [bind]; [|discriminate].
  destruct (list_in ("SIG" ++ i) _); cbn [negb]; [|discriminate].
  intros R. assert (l_f r = f /\ l_i r = i) as [-> ->].
  { destruct (anomalous_labels _ _ _) as [[d sd]|[]]; cbn [bind] in R;
      try discriminate; injection R as <- _; split; reflexivity. }
  apply list_index_first in Hkf, Hki. apply getitem_nat in Hf, Hi.
  exists content, kf, ki. intuition.
Qed.

(** The anomalous columns are optional.  On a file with a label for
    every column type, an amplitude and an intensity column with their
    sigma columns are all [get_labels] needs: whatever the file holds
    for type "D", the call returns. *)
Theorem get_labels_complete (file : reflection_file A) (mtz_file : string)
    (content : mtz_content) (kf ki : nat) (f i : string) :
  is_ccp4_mtz file = true ->
  file_content file = Some content ->
  length (column_types content) <= length (column_labels content) ->
  list_index "F" (column_types content) = Ok kf ->
  nth_error (column_labels content) kf = Some f ->
  list_in ("SIG" ++ f)%string (column_labels content) = true ->
  list_index "J" (column_types content) = Ok ki ->
  nth_error (column_labels content) ki = Some i ->
  list_in ("SIG" ++ i)%string (column_labels content) = true ->
  exists r warnings,
    get_labels file mtz_file = Ok (r, warnings) /\
    l_f r = f /\ l_i r = i.
Proof.
  intros Hmtz Hcontent Hlen Hkf Hf Hfp Hki Hi Hsi.
  assert (HF : list_in "F" (column_types content) = true).
  { apply list_in_In. apply list_index_first in Hkf as [Hn _].
    now apply nth_error_In in Hn. }
  assert (HJ : list_in "J" (column_types content) = true).
  { apply list_in_In. apply list_index_first in Hki as [Hn _].
    now apply nth_error_In in Hn. }
  assert (Gf : getitem (column_labels content) (Z.of_nat kf) = Ok f).
  { destruct (getitem_nat_total (column_labels content) kf) as (b & Hb).
    - apply nth_error_Some. congruence.
    - rewrite Hb. apply getitem_nat in Hb. congruence. }
  assert (Gi : getitem (column_labels content) (Z.of_nat ki) = Ok i).
  { destruct (getitem_nat_total (column_labels content) ki) as (b & Hb).
    - apply nth_error_Some. congruence.
    - rewrite Hb. apply getitem_nat in Hb. congruence. }
  unfold get_labels. rewrite Hmtz, Hcontent. cbn [negb].
  rewrite HF. cbn [negb]. rewrite Hkf. cbn [bind]. rewrite Gf. cbn [bind].
  rewrite Hfp. cbn [negb]. rewrite HJ. cbn [negb]. rewrite Hki. cbn [bind].
  rewrite Gi. cbn [bind]. rewrite Hsi. cbn [negb].
  destruct (anomalous_labels_safe mtz_file _ _ Hlen)
    as [(d & sd & ->) | (msg & ->)]; cbn [bind]; eauto.
Qed.

(** Without a column of type "D" both anomalous labels are [None]. *)
Theorem get_labels_without_anomalous (file : reflection_file A)
    (mtz_file : string) (content : mtz_content) (r : labels) (warnings : nat) :
  file_content file = Some content ->
  list_in "D" (column_types content) = false ->
  get_labels file mtz_file = Ok (r, warnings) ->
  l_dano r = None /\ l_sigdano r = None.
Proof.
  intros Hcontent HD. unfold get_labels.
  destruct (is_ccp4_mtz file); cbn [negb]; [|discriminate].
  rewrite Hcontent.
  destruct (list_in "F" (column_types content)); cbn [negb]; [|discriminate].
  destruct (list_index "F" _) as [kf|e]; cbn [bind]; [|discriminate].
  destruct (getitem _ (Z.of_nat kf)) as [f|e]; cbn [bind]; [|discriminate].
  destruct (list_in ("SIG" ++ f) _); cbn [negb]; [|discriminate].
  destruct (list_in "J" (column_types content)); cbn [negb]; [|discriminate].
  destruct (list_index "J" _) as [ki|e]; cbn [bind]; [|discriminate].
  destruct (getitem _ (Z.of_nat ki)) as [i|e]; cbn [bind]; [|discriminate].
  destruct (list_in ("SIG" ++ i) _); cbn [negb]; [|discriminate].
  unfold anomalous_labels. rewrite HD. cbn [negb bind].
  intros [= <- _]. split; reflexivity.
Qed.

(** The free label is the last label of the file that contains "free",
    in any case, and whose column holds a valid reflection with flag 0
    and a valid one with another flag; there is none when no column
    passes.  One warning is logged for each passing column after the
    first. *)
Theorem get_labels_free_rule (file : reflection_file A) (mtz_file : string)
    (content : mtz_content) (r : labels) (warnings : nat) :
  file_content file = Some content ->
  get_labels file mtz_file = Ok (r, warnings) ->
  let candidates :=
    filter (fun l => free_candidate content l = true) (column_labels content) in
  l_free r = last candidates /\ warnings = length candidates - 1.
Proof.
  intros Hcontent. unfold get_labels.
  destruct (is_ccp4_mtz file); cbn [negb]; [|discriminate].
  rewrite Hcontent.
  destruct (list_in "F" (column_types content)); cbn [negb]; [|discriminate].
  destruct (list_index "F" _) as [kf|e]; cbn [bind]; [|discriminate].
  destruct (getitem _ (Z.of_nat kf)) as [f|e]; cbn [bind]; [|discriminate].
  destruct (list_in ("SIG" ++ f) _); cbn [negb]; [|discriminate].
  destruct (list_in "J" (column_types content)); cbn [negb]; [|discriminate].
  destruct (list_index "J" _) as [ki|e]; cbn [bind]; [|discriminate].
  destruct (getitem _ (Z.of_nat ki)) as [i|e]; cbn [bind]; [|discriminate].
  destruct (list_in ("SIG" ++ i) _); cbn [negb]; [|discriminate].
  intros R.
  assert (E : (l_free r, warnings)
              = fold_left (free_step content) (column_labels content) (None, 0)).
  { destruct (anomalous_labels _ _ _) as [[d sd]|[]]; cbn [bind] in R;
      try discriminate; injection R as <- <-; cbn [l_free];
      now destruct (fold_left _ _ _). }
  rewrite free_scan in E by (now left). cbv zeta in E.
  set (candidates := filter _ _) in *.
  injection E as -> ->. split.
  - now destruct (last candidates).
  - destruct candidates; cbn [length]; lia.
Qed.

(** ** [crystal_data] *)

Lemma remove_char_absent (c : ascii) (s : string) :
  contains (String c EmptyString) (remove_char c s) = false.
Proof.
  induction s as [|d s IH]; [reflexivity|].
  cbn [remove_char]. destruct (Ascii.eqb d c) eqn:E; [exact IH|].
  cbn [contains String.prefix]. rewrite IH.
  destruct (ascii_dec c d) as [->|Hne].
  - rewrite Ascii.eqb_refl in E. discriminate.
  - reflexivity.
Qed.

(** The space group comes back without a blank, and a file without a
    crystal raises [IndexError]. *)
Theorem crystal_data_space_group (file : reflection_file A)
    (content : mtz_content) :
  file_content file = Some content ->
  match crystal_data file with
  | Ok (space_group, resolution, cell_parameters) =>
      contains " " space_group = false /\
      nth_error (crystals content) 0 = Some cell_parameters
  | Raise e => e = IndexError /\ crystals content = []
  end.
Proof.
  intros Hcontent. unfold crystal_data. rewrite Hcontent.
  destruct (crystals content) as [|cell cells].
  - cbn. split; reflexivity.
  - rewrite getitem_0_cons. cbn [bind]. split; [|reflexivity].
    apply remove_char_absent.
Qed.

End GetLabels.

(** ** On the worked file *)

Lemma get_labels_sound_witness :
  exists content,
    file_content typical_file = Some content /\
    In "FP" (column_labels content) /\
    "SIGFP" = ("SIG" ++ "FP")%string /\ In "SIGFP" (column_labels content) /\
    In "IMEAN" (column_labels content) /\
    "SIGIMEAN" = ("SIG" ++ "IMEAN")%string /\
    In "SIGIMEAN" (column_labels content) /\ True.
Proof.
  exact (get_labels_sound typical_file "in.mtz"
           (mk_labels "FP" "SIGFP" "IMEAN" "SIGIMEAN" None None
              (Some "FreeR_flag")) 0 eq_refl).
Defined.

Lemma get_labels_first_typed_column_witness :
  exists content kf ki,
    file_content typical_file = Some content /\
    nth_error (column_types content) kf = Some "F" /\
    nth_error (column_labels content) kf = Some "FP" /\
    (forall j, j < kf -> nth_error (column_types content) j <> Some "F") /\
    nth_error (column_types content) ki = Some "J" /\
    nth_error (column_labels content) ki = Some "IMEAN" /\
    (forall j, j < ki -> nth_error (column_types content) j <> Some "J").
Proof.
  exact (get_labels_first_typed_column typical_file "in.mtz"
           (mk_labels "FP" "SIGFP" "IMEAN" "SIGIMEAN" None None
              (Some "FreeR_flag")) 0 eq_refl).
Defined.

Lemma get_labels_complete_witness :
  exists r warnings,
    get_labels typical_file "in.mtz" = Ok (r, warnings) /\
    l_f r = "FP" /\ l_i r = "IMEAN".
Proof.
  apply (get_labels_complete typical_file "in.mtz" typical_content 3 5);
    reflexivity.
Defined.

Lemma get_labels_without_anomalous_witness :
  l_dano (mk_labels "FP" "SIGFP" "IMEAN" "SIGIMEAN" None None
            (Some "FreeR_flag")) = None /\
  l_sigdano (mk_labels "FP" "SIGFP" "IMEAN" "SIGIMEAN" None None
               (Some "FreeR_flag")) = None.
Proof.
  exact (get_labels_without_anomalous typical_file "in.mtz" typical_content
           _ 0 eq_refl eq_refl eq_refl).
Defined.

Lemma get_labels_free_rule_witness :
  Some "FreeR_flag"
    = last (filter (fun l => free_candidate typical_content l = true)
              (column_labels typical_content)) /\
  0 = length (filter (fun l => free_candidate typical_content l = true)
                (column_labels typical_content)) - 1.
Proof.
  exact (get_labels_free_rule typical_file "in.mtz" typical_content
           (mk_labels "FP" "SIGFP" "IMEAN" "SIGIMEAN" None None
              (Some "FreeR_flag")) 0 eq_refl eq_refl).
Defined.

Lemma crystal_data_space_group_witness :
  match crystal_data typical_file with
  | Ok (space_group, resolution, cell_parameters) =>
      contains " " space_group = false /\
      nth_error (crystals typical_content) 0 = Some cell_parameters
  | Raise e => e = IndexError /\ crystals typical_content = []
  end.
Proof.
  exact (crystal_data_space_group typical_file typical_content eq_refl).
Defined.

End LabelFacts.

(* ===================================================================== *)
(** * More on [return_z_score_results] *)
(* ===================================================================== *)

Module RankerFacts.
Import AmoreUtil AmoreMore PyFacts AmoreFacts.

Local Open Scope float_scope.

(** Case analysis on each [float(fields[i])] of a parse, in order. *)
Ltac each_float :=
  repeat match goal with
  | |- context [bind (float_at ?p ?f ?i) _] =>
      let E := fresh "E" in
      destruct (float_at p f i) eqn:E; cbn [bind]; try discriminate
  end.

Section Ranker.
Variable pyfloat : string -> option float.

(** ** The Z-score of a record is the one that was tested *)

Lemma parse_try_z (fields : list string) (v : line_values) :
  parse_try pyfloat fields = Ok v ->
  float_at pyfloat fields (-3) = Ok (v_CC_F_Z_score v).
Proof. unfold parse_try. each_float. now intros [= <-]. Qed.

Lemma parse_except_z (fields : list string) (v : line_values) :
  parse_except pyfloat fields = Ok v ->
  float_at pyfloat fields (-3) = Ok (v_CC_F_Z_score v).
Proof. unfold parse_except. each_float. now intros [= <-]. Qed.

Lemma parse_fields_z (fields : list string) (v : line_values) :
  parse_fields pyfloat fields = Ok v ->
  float_at pyfloat fields (-3) = Ok (v_CC_F_Z_score v).
Proof.
  unfold parse_fields.
  destruct (parse_try pyfloat fields) as [v'|e] eqn:Et.
  - intros [= <-]. now apply parse_try_z.
  - destruct e; try discriminate. apply parse_except_z.
Qed.

Lemma scan_lines_above (self_score : float) (lines : list string)
    (locals locals' : option line_values) :
  above self_score locals ->
  scan_lines pyfloat self_score lines locals = Ok locals' ->
  above self_score locals'.
Proof.
  intros Hab. induction lines as [|line lines IH]; cbn [scan_lines].
  - now intros [= <-].
  - destruct (startswith line sentinel); [|exact IH].
    destruct (float_at pyfloat (split line) (-3)) as [z|e] eqn:Hz; cbn [bind];
      [|discriminate].
    destruct (PrimFloat.ltb self_score z) eqn:Hlt; [|exact IH].
    destruct (parse_fields pyfloat (split line)) as [v|e] eqn:Hp; cbn [bind];
      [|discriminate].
    intros [= <-]. cbn [above].
    apply parse_fields_z in Hp. rewrite Hz in Hp. now injection Hp as <-.
Qed.

(** ** One record per log *)

Lemma scan_logs_records (w : world) (log_dir : string) (self_score : float)
    (logs : list string) (locals locals' : option line_values)
    (rs rs' : list result) :
  above self_score locals ->
  scan_logs pyfloat w log_dir self_score (locals, rs) logs = Ok (locals', rs') ->
  exists new,
    rs' = rs ++ new /\
    map log_name new = map (cut_name log_dir) logs /\
    Forall (fun r => PrimFloat.ltb self_score (CC_F_Z_score r) = true) new.
Proof.
  revert locals rs. induction logs as [|log logs IH]; intros locals rs Hab;
    cbn [scan_logs].
  - intros [= <- <-]. exists []. now rewrite app_nil_r.
  - unfold scan_log at 1. cbn [fst snd].
    destruct (open_lines w (path_join log_dir log)) as [lines|e]; cbn [bind];
      [|discriminate].
    destruct (scan_lines pyfloat self_score lines locals) as [[v|]|e] eqn:Hs;
      cbn [bind]; try discriminate.
    intros R. pose proof (scan_lines_above _ _ _ _ Hab Hs) as Hab'.
    destruct (IH _ _ Hab' R) as (new & -> & Hnames & Hall).
    exists (result_of (cut_name log_dir log) v :: new).
    rewrite <- app_assoc. cbn [app map]. split; [reflexivity|].
    split; [now rewrite Hnames|].
    constructor; [exact Hab' | exact Hall].
Qed.

(** A call that returns has added exactly one record for each log file
    of the directory, in the order of the walk, each under the first six
    characters of the file's name when the directory path contains
    [clogs] and under the first seven otherwise.  The records already
    held are kept in front and the threshold [self.score] is not
    changed. *)
Theorem one_record_per_log (w : world) (self self' : amore_results)
    (log_dir : string) :
  return_z_score_results pyfloat w self log_dir = Ok self' ->
  exists new,
    results self' = results self ++ new /\
    map log_name new = map (cut_name log_dir) (logs_of w log_dir) /\
    score self' = score self.
Proof.
  unfold return_z_score_results.
  destruct (scan_logs _ _ _ _ _ _) as [[locals' rs']|e] eqn:Hs; cbn [bind];
    [|discriminate].
  intros [= <-]. cbn [results score snd].
  destruct (scan_logs_records _ _ _ _ None _ _ _ I Hs) as (new & -> & Hn & _).
  exists new. easy.
Qed.

(** Every record a call adds has a Z-score strictly above the
    threshold: the scores the ranking compares are never NaN, zero or
    negative for the initial threshold 0. *)
Theorem records_above_threshold (w : world) (self self' : amore_results)
    (log_dir : string) :
  return_z_score_results pyfloat w self log_dir = Ok self' ->
  exists new,
    results self' = results self ++ new /\
    Forall (fun r => PrimFloat.ltb (score self) (CC_F_Z_score r) = true) new.
Proof.
  unfold return_z_score_results.
  destruct (scan_logs _ _ _ _ _ _) as [[locals' rs']|e] eqn:Hs; cbn [bind];
    [|discriminate].
  intros [= <-]. cbn [results snd].
  destruct (scan_logs_records _ _ _ _ None _ _ _ I Hs) as (new & -> & _ & Hall).
  exists new. easy.
Qed.

(** ** Lines *)

(** A qualifying line all of whose eleven fields parse gives a record of
    floats: no field is marked. *)
Theorem numeric_line_parses (self_score : float) (line : string)
    (rest : list string) (locals : option line_values)
    (a b g c1 c2 c3 c4 c5 z zp n : float) :
  startswith line sentinel = true ->
  float_at pyfloat (split line) (-3) = Ok z ->
  PrimFloat.ltb self_score z = true ->
  float_at pyfloat (split line) 2 = Ok a ->
  float_at pyfloat (split line) 3 = Ok b ->
  float_at pyfloat (split line) 4 = Ok g ->
  float_at pyfloat (split line) 8 = Ok c1 ->
  float_at pyfloat (split line) 9 = Ok c2 ->
  float_at pyfloat (split line) 10 = Ok c3 ->
  float_at pyfloat (split line) 11 = Ok c4 ->
  float_at pyfloat (split line) 12 = Ok c5 ->
  float_at pyfloat (split line) (-2) = Ok zp ->
  float_at pyfloat (split line) (-1) = Ok n ->
  scan_lines pyfloat self_score (line :: rest) locals
    = Ok (Some (mk_values a b g (Float c1) (Float c2) (Float c3) (Float c4)
                  (Float c5) z zp n)).
Proof.
  intros Hs Hz Hlt Ha Hb Hg H1 H2 H3 H4 H5 Hzp Hn.
  cbn [scan_lines]. rewrite Hs, Hz. cbn [bind]. rewrite Hlt.
  unfold parse_fields, parse_try.
  rewrite Ha, Hb, Hg, H1, H2, H3, H4, H5, Hz, Hzp, Hn. reflexivity.
Qed.

Lemma getitem_beyond {B : Type} (l : list B) (i : Z) :
  (Z.of_nat (length l) <= i)%Z -> getitem l i = Raise IndexError.
Proof.
  intros Hi. unfold getitem. cbv zeta.
  replace (i <? 0)%Z with false by (symmetry; apply Z.ltb_ge; lia).
  cbv iota.
  replace (Z.of_nat (length l) <=? i)%Z with true
    by (symmetry; apply Z.leb_le; lia).
  now rewrite orb_true_r.
Qed.

Lemma getitem_before {B : Type} (l : list B) (i : Z) :
  (i < - Z.of_nat (length l))%Z -> getitem l i = Raise IndexError.
Proof.
  intros Hi. unfold getitem. cbv zeta.
  replace (i <? 0)%Z with true by (symmetry; apply Z.ltb_lt; lia).
  cbv iota.
  replace (i + Z.of_nat (length l) <? 0)%Z with true
    by (symmetry; apply Z.ltb_lt; lia).
  reflexivity.
Qed.

(** The test of the threshold is outside the [try]: a line that starts
    with the sentinel and has fewer than three fields ends the scan
    with [IndexError], one whose third field from the end is not a
    number ends it with [ValueError], whatever follows in the file. *)
Theorem sentinel_line_needs_z_score (self_score : float) (line : string)
    (rest : list string) (locals : option line_values) :
  startswith line sentinel = true ->
  (length (split line) < 3 ->
   scan_lines pyfloat self_score (line :: rest) locals = Raise IndexError) /\
  (forall s,
     getitem (split line) (-3) = Ok s -> pyfloat s = None ->
     scan_lines pyfloat self_score (line :: rest) locals = Raise ValueError).
Proof.
  intros Hs. split.
  - intros Hlen. cbn [scan_lines]. rewrite Hs. unfold float_at.
    rewrite getitem_before by lia. reflexivity.
  - intros s Hg Hbad. cbn [scan_lines]. rewrite Hs. unfold float_at, to_float.
    rewrite Hg. cbn [bind]. rewrite Hbad. reflexivity.
Qed.

(** The handler catches [ValueError] only: a qualifying line that is cut
    short before the correlation fields, its angles in place, ends the
    scan with [IndexError]. *)
Theorem short_solution_line (self_score : float) (line : string)
    (rest : list string) (locals : option line_values) (a b g z : float) :
  startswith line sentinel = true ->
  float_at pyfloat (split line) (-3) = Ok z ->
  PrimFloat.ltb self_score z = true ->
  float_at pyfloat (split line) 2 = Ok a ->
  float_at pyfloat (split line) 3 = Ok b ->
  float_at pyfloat (split line) 4 = Ok g ->
  length (split line) <= 8 ->
  scan_lines pyfloat self_score (line :: rest) locals = Raise IndexError.
Proof.
  intros Hs Hz Hlt Ha Hb Hg Hlen.
  cbn [scan_lines]. rewrite Hs, Hz. cbn [bind]. rewrite Hlt.
  unfold parse_fields, parse_try. rewrite Ha, Hb, Hg. cbn [bind].
  unfold float_at at 1. rewrite getitem_beyond by lia. reflexivity.
Qed.

End Ranker.

(** ** On worked logs *)

Lemma one_record_per_log_witness :
  exists new,
    [result_of "1aaa_A" (solution_values 6.5);
     result_of "2bbb_A" (solution_values 6.5)] = [] ++ new /\
    map log_name new
      = map (cut_name "work/clogs") (logs_of stale_logs_world "work/clogs") /\
    0 = score new_amore_results.
Proof.
  exact (one_record_per_log decimal_float stale_logs_world new_amore_results
           (mk_amore_results
              [result_of "1aaa_A" (solution_values 6.5);
               result_of "2bbb_A" (solution_values 6.5)]
              [result_of "1aaa_A" (solution_values 6.5);
               result_of "2bbb_A" (solution_values 6.5)] 0)
           "work/clogs" eq_refl).
Defined.

Lemma records_above_threshold_witness :
  exists new,
    [result_of "1aaa_A" (solution_values 6.5);
     result_of "2bbb_A" (solution_values 6.5)] = [] ++ new /\
    Forall (fun r => PrimFloat.ltb 0 (CC_F_Z_score r) = true) new.
Proof.
  exact (records_above_threshold decimal_float stale_logs_world
           new_amore_results
           (mk_amore_results
              [result_of "1aaa_A" (solution_values 6.5);
               result_of "2bbb_A" (solution_values 6.5)]
              [result_of "1aaa_A" (solution_values 6.5);
               result_of "2bbb_A" (solution_values 6.5)] 0)
           "work/clogs" eq_refl).
Defined.

Lemma numeric_line_parses_witness :
  scan_lines decimal_float 0 [solution_line "6.5"] None
    = Ok (Some (solution_values 6.5)).
Proof.
  apply (numeric_line_parses decimal_float 0 (solution_line "6.5") [] None
           10 20 30 41.5 52.5 43.5 44.5 5.5 6.5 2.5 7); reflexivity.
Defined.

(** A file of four lines: a heading, a solution at the threshold, the
    first solution above it, and a better one after it that is not
    read. *)
Lemma scan_lines_first_qualifying_witness :
  scan_lines decimal_float 0
    ([" AMORE"; solution_line "0.0"]
     ++ solution_line "6.5" :: [solution_line "9.0"]) None
    = do v <- parse_fields decimal_float (split (solution_line "6.5"));
      Ok (Some v).
Proof.
  apply (scan_lines_first_qualifying decimal_float 0 6.5).
  - constructor; [left; reflexivity|].
    constructor; [|constructor].
    right. exists 0. split; reflexivity.
  - reflexivity.
  - reflexivity.
  - reflexivity.
Defined.

Lemma sentinel_line_needs_z_score_witness :
  (length (split " SOLUTIONRCD   1") < 3 ->
   scan_lines decimal_float 0 [" SOLUTIONRCD   1"] None = Raise IndexError) /\
  (forall s,
     getitem (split " SOLUTIONRCD   1") (-3) = Ok s ->
     decimal_float s = None ->
     scan_lines decimal_float 0 [" SOLUTIONRCD   1"] None = Raise ValueError).
Proof.
  exact (sentinel_line_needs_z_score decimal_float 0 " SOLUTIONRCD   1" []
           None eq_refl).
Defined.

Lemma short_solution_line_witness :
  scan_lines decimal_float 0 [" SOLUTIONRCD 1 10.0 20.0 30.0 6.5 2.5 7.0"]
    None = Raise IndexError.
Proof.
  apply (short_solution_line decimal_float 0
           " SOLUTIONRCD 1 10.0 20.0 30.0 6.5 2.5 7.0" [] None 10 20 30 6.5);
    reflexivity.
Defined.

End RankerFacts.

(* ===================================================================== *)
(** * More on the worker pool, on [calculate_intr_box] and on
      [_amore_run] *)
(* ===================================================================== *)

Module WorkerFacts.
Import AmoreUtil AmoreMore PyFacts PoolFacts.

Local Open Scope float_scope.

Section Workers.
Variables (w : world) (o : optd).

(** ** The pool, whatever the pipelines do *)

(** Every run of the pool ends, also when pipelines raise: from the
    state [amore_run] leaves, no interleaving has more than 3 N + 2 W
    steps, and as long as a worker has not ended a step is possible. *)
Theorem pool_always_terminates (models_dir : string) (n : nat) (s : pool) :
  steps w o n (amore_run w o models_dir) s ->
  (n + measure s <= 3 * length (queued_models w models_dir) + 2 * nproc o)%nat /\
  (all_ended s = false -> exists i s', step w o i s = Some s').
Proof.
  intros Hsteps. split.
  - rewrite <- (measure_init w o). now apply (steps_measure w o).
  - apply (step_progress w o).
Qed.

Lemma running_pc (wk : worker) :
  running wk = match w_pc wk with Running m => Some m | _ => None end.
Proof. reflexivity. Qed.

Lemma step_accounted (i : nat) (s s' : pool) :
  step w o i s = Some s' -> accounted s' ≡ₚ accounted s.
Proof.
  intros Hstep. destruct s as [q0 ws p0]. unfold accounted.
  destruct (step_inv _ _ _ _ _ Hstep) as
    [wk l1 l2 Hws Hpc Hq ->|wk l1 l2 Hws Hpc Hq ->|wk l1 l2 Hws Hpc Hq ->
    |wk l1 l2 m rest Hws Hpc Hq ->|wk l1 l2 m name Hws Hpc Hrun ->
    |wk l1 l2 m e Hws Hpc Hrun ->];
    cbn [job_queue workers processed] in *; subst;
    rewrite !omap_running_split; cbn [running w_pc];
    rewrite (running_pc wk), Hpc; rewrite ?map_app; cbn [map snd app];
    solve_Permutation.
Qed.

Lemma steps_accounted (n : nat) (s s' : pool) :
  steps w o n s s' -> accounted s' ≡ₚ accounted s.
Proof.
  induction 1 as [s|n i s s1 s2 Hstep _ IH]; [reflexivity|].
  rewrite IH. now apply step_accounted with i.
Qed.

(** In every state a pool reaches, each queued model is in exactly one
    place: handed to [_amore_run] and done with, inside [_amore_run],
    or still on the queue.  No model is taken by two workers and none
    is dropped, also when pipelines raise. *)
Theorem no_model_lost_or_doubled (models_dir : string) (n : nat) (s : pool) :
  steps w o n (amore_run w o models_dir) s ->
  accounted s ≡ₚ queued_models w models_dir.
Proof.
  intros Hsteps. rewrite (steps_accounted _ _ _ Hsteps).
  exact (proj1 (pool_inv_init w o models_dir)).
Qed.

(** The workers only take from the queue: what is queued at any later
    point is what is left of the queue after some models at its front
    were taken, at most one for each step. *)
Theorem queue_only_shrinks (n : nat) (s s' : pool) :
  steps w o n s s' ->
  exists taken,
    job_queue s = taken ++ job_queue s' /\ (length taken <= n)%nat.
Proof.
  induction 1 as [s|n i s s1 s2 Hstep _ IH].
  - exists []. split; [reflexivity | cbn; lia].
  - destruct IH as (taken & Hq & Hlen).
    destruct (step_inv _ _ _ _ _ Hstep) as
      [wk l1 l2 Hws Hpc Hq0 ->|wk l1 l2 Hws Hpc Hq0 ->|wk l1 l2 Hws Hpc Hq0 ->
      |wk l1 l2 m rest Hws Hpc Hq0 ->|wk l1 l2 m name Hws Hpc Hrun ->
      |wk l1 l2 m e Hws Hpc Hrun ->];
      cbn [job_queue] in Hq;
      try (exists taken; split; [congruence | lia]).
    exists (m :: taken). rewrite Hq0, Hq. split; [reflexivity | cbn; lia].
Qed.

(** ** One worker *)

Lemma lone_split (l1 l2 : list worker) (wk wk0 : worker) :
  [wk0] = l1 ++ wk :: l2 -> l1 = [] /\ l2 = [] /\ wk = wk0.
Proof.
  destruct l1 as [|x l1]; cbn [app].
  - now intros [= -> <-].
  - intros [= _ Hnil]. now destruct l1.
Qed.

Lemma step_in_order (i : nat) (s s' : pool) (wk0 : worker) :
  workers s = [wk0] ->
  step w o i s = Some s' ->
  (exists wk', workers s' = [wk']) /\ in_order s' = in_order s.
Proof.
  intros Hone Hstep. destruct s as [q0 ws p0]. unfold in_order, lone_worker.
  cbn [job_queue workers processed] in *. subst ws.
  destruct (step_inv _ _ _ _ _ Hstep) as
    [wk l1 l2 Hws Hpc Hq ->|wk l1 l2 Hws Hpc Hq ->|wk l1 l2 Hws Hpc Hq ->
    |wk l1 l2 m rest Hws Hpc Hq ->|wk l1 l2 m name Hws Hpc Hrun ->
    |wk l1 l2 m e Hws Hpc Hrun ->];
    cbn [job_queue workers processed] in *;
    apply lone_split in Hws as (-> & -> & ->); subst;
    (split; [eexists; reflexivity|]);
    cbn [app]; unfold running; cbn [w_pc]; rewrite Hpc;
    rewrite ?map_app; cbn [map snd app]; rewrite <- ?app_assoc; reflexivity.
Qed.

(** A single worker deals with the models in the order of the queue:
    at every point the models done with, the one being run and the ones
    still queued make up the queue as the parent filled it. *)
Theorem single_worker_fifo (models_dir : string) (n : nat) (s : pool) :
  nproc o = 1%nat ->
  steps w o n (amore_run w o models_dir) s ->
  in_order s = queued_models w models_dir.
Proof.
  intros Hone Hsteps.
  assert (Hinit : exists wk, workers (amore_run w o models_dir) = [wk]).
  { unfold amore_run. cbn [workers]. rewrite Hone. eexists. reflexivity. }
  assert (Hin : in_order (amore_run w o models_dir) = queued_models w models_dir).
  { unfold in_order, lone_worker, amore_run. cbn [workers processed job_queue].
    rewrite Hone. reflexivity. }
  revert Hinit Hin. generalize (queued_models w models_dir) as q.
  induction Hsteps as [s|n i s s1 s2 Hstep _ IH]; intros q Hinit Hin;
    [exact Hin|].
  destruct Hinit as (wk & Hwk).
  destruct (step_in_order _ _ _ _ Hwk Hstep) as [Hone' Hsame].
  apply IH; [exact Hone' | congruence].
Qed.

(** ** [calculate_intr_box] *)

(** How [calculate_intr_box] fails: with the error of the reader when
    the file cannot be read, with [IndexError] when the structure has no
    model or its first model no chain, with [ValueError] when the first
    chain holds no atom. *)
Theorem calculate_intr_box_errors (model : string) :
  match read_pdb w model with
  | Raise e => calculate_intr_box w model = Raise e
  | Ok pdb =>
      match models pdb with
      | [] => calculate_intr_box w model = Raise IndexError
      | [] :: _ => calculate_intr_box w model = Raise IndexError
      | (chain0 :: _) :: _ =>
          concat (concat chain0) = [] ->
          calculate_intr_box w model = Raise ValueError
      end
  end.
Proof.
  unfold calculate_intr_box.
  destruct (read_pdb w model) as [pdb|e]; cbn [bind]; [|reflexivity].
  destruct (models pdb) as [|[|chain0 chains] others]; try reflexivity.
  intros Hnone. rewrite getitem_0_cons. cbn [bind].
  rewrite getitem_0_cons. cbn [bind]. rewrite Hnone. reflexivity.
Qed.

(** Only the atoms of the first chain of the first model, and the
    resolution, enter the result: other chains and other models do not,
    nor does the grouping of the atoms into residues, and a missing
    resolution counts as 2.0. *)
Theorem calculate_intr_box_first_chain (w' : world) (model model' : string)
    (resolution resolution' : option float) (chain0 chain0' : chain)
    (chains chains' : list chain) (others others' : list pdb_model) :
  read_pdb w model = Ok (mk_pdb resolution ((chain0 :: chains) :: others)) ->
  read_pdb w' model'
    = Ok (mk_pdb resolution' ((chain0' :: chains') :: others')) ->
  concat (concat chain0) = concat (concat chain0') ->
  default 2.0 resolution = default 2.0 resolution' ->
  calculate_intr_box w model = calculate_intr_box w' model'.
Proof.
  intros Hr Hr' Hatoms Hres. unfold calculate_intr_box.
  rewrite Hr, Hr'. cbn [bind models best_resolution].
  rewrite !getitem_0_cons. cbn [bind]. rewrite !getitem_0_cons. cbn [bind].
  rewrite Hatoms.
  replace (match resolution with Some r => r | None => 2.0 end)
    with (default 2.0 resolution) by now destruct resolution.
  replace (match resolution' with Some r => r | None => 2.0 end)
    with (default 2.0 resolution') by now destruct resolution'.
  now rewrite Hres.
Qed.

(** ** [_amore_run] *)

(** Only the mode [CONTAM_ROT] runs anything.  In the mode [FULL_ROT]
    the call names the model by the first seven characters of its file
    name and returns, whatever the file holds; in any other mode it
    keeps the name the worker had, and raises [AttributeError] when it
    had none. *)
Theorem amore_run_mode (name : option string) (model : string) :
  (mode o = "FULL_ROT" ->
   _amore_run w o name model = Ok (Some (slice_to 7 (basename model)))) /\
  (mode o <> "CONTAM_ROT" -> mode o <> "FULL_ROT" ->
   _amore_run w o name model
     = match name with
       | Some n => Ok (Some n)
       | None => Raise AttributeError
       end).
Proof.
  unfold _amore_run. split.
  - intros ->. reflexivity.
  - intros H1 H2. apply String.eqb_neq in H1, H2. rewrite H1, H2.
    now destruct name.
Qed.

(** ** From the worker's name to the ranker's *)

Lemma prefix_refl (s : string) : String.prefix s s = true.
Proof.
  induction s as [|c s IH]; [reflexivity|].
  cbn [String.prefix]. destruct (ascii_dec c c); [exact IH | congruence].
Qed.

Lemma contains_refl (s : string) : contains s s = true.
Proof. destruct s; cbn [contains]; now rewrite prefix_refl. Qed.

Lemma contains_after (needle pre s : string) :
  contains needle s = true -> contains needle (pre ++ s)%string = true.
Proof.
  intros Hs. induction pre as [|c pre IH]; [exact Hs|].
  cbn [String.append contains]. rewrite IH. apply orb_true_r.
Qed.

Lemma clogs_in_log_dir (dir : string) :
  contains "clogs" (path_join dir "clogs") = true.
Proof.
  unfold path_join. cbn [String.prefix].
  destruct (ascii_dec "/" "c"); [discriminate|].
  destruct dir as [|c dir]; [reflexivity|].
  destruct (ends_with_slash (String c dir)); now apply contains_after.
Qed.

Lemma six_of_name (b : string) :
  (6 <= String.length b)%nat ->
  slice_to 6 (slice_to 6 b ++ ".log")%string = slice_to 6 b.
Proof.
  destruct b as [|c1 [|c2 [|c3 [|c4 [|c5 [|c6 b]]]]]]; cbn [String.length];
    try lia.
  intros _. cbv [slice_to]. cbn. now destruct b.
Qed.

(** The log of the rotation search is written where the ranker reads,
    and, for a model whose file name has six characters or more, the
    ranker files the record under the very name the worker gave the
    model. *)
Theorem worker_name_is_ranker_name (pyfloat : string -> option float)
    (model : string) (intrad self_score : float) (lines : list string)
    (v : line_values) (acc : option line_values * list result) :
  (6 <= String.length (basename model))%nat ->
  open_lines w (path_join (fst (rotfun_log o model)) (snd (rotfun_log o model)))
    = Ok lines ->
  scan_lines pyfloat self_score lines (fst acc) = Ok (Some v) ->
  amore_rotfun w o (Some (slice_to 6 (basename model))) intrad
    = run_job w (path_join (fst (rotfun_log o model))
                   (snd (rotfun_log o model))) /\
  scan_log pyfloat w (fst (rotfun_log o model)) self_score acc
    (snd (rotfun_log o model))
    = Ok (Some v, snd acc ++ [result_of (slice_to 6 (basename model)) v]).
Proof.
  intros Hlen Hopen Hscan. split; [reflexivity|].
  unfold scan_log. cbn [rotfun_log fst snd] in *.
  rewrite Hopen. cbn [bind]. rewrite Hscan. cbn [bind].
  rewrite clogs_in_log_dir, six_of_name by exact Hlen. reflexivity.
Qed.

End Workers.

Local Close Scope float_scope.

(** ** On worked inputs *)

(** A world that keeps the log of the rotation search of [good01.pdb]. *)
Lemma worker_name_is_ranker_name_witness :
  let w := log_world "work/clogs" [("good01.log", [solution_line "6.5"])] in
  amore_rotfun w (contaminant_search 1) (Some "good01") 1.5%float
    = run_job w "work/clogs/good01.log" /\
  scan_log decimal_float w "work/clogs" 0%float (None, []) "good01.log"
    = Ok (Some (solution_values 6.5%float),
          [result_of "good01" (solution_values 6.5%float)]).
Proof.
  intros w.
  apply (worker_name_is_ranker_name w (contaminant_search 1) decimal_float
           "models/good01.pdb" 1.5%float 0%float [solution_line "6.5"]
           (solution_values 6.5%float) (None, [])).
  - vm_compute. lia.
  - reflexivity.
  - reflexivity.
Defined.

Lemma pool_always_terminates_witness :
  let s :=
    run_schedule two_models_world (contaminant_search 1) [0; 0; 0]
      (amore_run two_models_world (contaminant_search 1) "models") in
  (3 + measure s <= 3 * 2 + 2 * 1)%nat /\ all_ended s = true.
Proof.
  intros s. split; [|reflexivity].
  apply (pool_always_terminates two_models_world (contaminant_search 1)
           "models" 3 s).
  do 3 (eapply (steps_next _ _ _ 0); [reflexivity|]). apply steps_refl.
Defined.

Lemma no_model_lost_or_doubled_witness :
  ["models/empty1.pdb"; "models/good01.pdb"]
    ≡ₚ ["models/empty1.pdb"; "models/good01.pdb"].
Proof.
  apply (no_model_lost_or_doubled two_models_world (contaminant_search 1)
           "models" 3
           (mk_pool ["models/good01.pdb"] [mk_worker (Died ValueError) None]
              [(0, "models/empty1.pdb")])).
  do 3 (eapply (steps_next _ _ _ 0); [reflexivity|]). apply steps_refl.
Defined.

Lemma queue_only_shrinks_witness :
  exists taken,
    ["models/empty1.pdb"; "models/good01.pdb"]
      = taken ++ ["models/good01.pdb"] /\ (length taken <= 3)%nat.
Proof.
  apply (queue_only_shrinks two_models_world (contaminant_search 1) 3
           (amore_run two_models_world (contaminant_search 1) "models")
           (mk_pool ["models/good01.pdb"] [mk_worker (Died ValueError) None]
              [(0, "models/empty1.pdb")])).
  do 3 (eapply (steps_next _ _ _ 0); [reflexivity|]). apply steps_refl.
Defined.

Lemma single_worker_fifo_witness :
  in_order
    (run_schedule sound_models_world (contaminant_search 1) [0; 0; 0; 0; 0]
       (amore_run sound_models_world (contaminant_search 1) "models"))
  = ["models/good01.pdb"; "models/good02.pdb"].
Proof.
  apply (single_worker_fifo sound_models_world (contaminant_search 1)
           "models" 5); [reflexivity|].
  do 5 (eapply (steps_next _ _ _ 0); [reflexivity|]). apply steps_refl.
Defined.

Lemma calculate_intr_box_first_chain_witness :
  calculate_intr_box sound_models_world "models/good01.pdb"
  = calculate_intr_box
      (mk_world
         (fun _ => Ok (mk_pdb None
                         [[[[[(0, 0, 0); (10, 0, 0)]]; [[(0, 5, 0)]; [(0, 0, 2)]]];
                           [[[(99, 99, 99)]]]];
                          [[[[(50, 50, 50)]]]]]%float))
         (fun _ => Ok tt) (fun _ => Ok tt) (fun _ => []) (fun d => d)
         (fun _ => Raise IOError))
      "other.pdb".
Proof.
  eapply (calculate_intr_box_first_chain sound_models_world); reflexivity.
Defined.

End WorkerFacts.
